(** * PubMed paper fetcher: a shallow embedding of [my_project/pubmed_utils.py]

    The development follows the layout of the Python module:

    - Python values used by the module ([str], [dict], JSON data,
      exceptions);
    - the pieces of the standard library the module calls
      ([xml.etree.ElementTree], [re], [csv]) and of [requests];
    - the five functions of [pubmed_utils.py], under their own names;
    - the properties of the specification, one theorem per claim.

    A Python [str] is a [string]; each [ascii] stands for one code point
    below 256. *)

From Stdlib Require Import String Ascii List Bool Arith ZArith Lia.
From Stdlib Require Import DecimalString.
Import ListNotations.
Open Scope list_scope.
Open Scope string_scope.

Set Implicit Arguments.

(* ================================================================= *)
(** * Python strings *)

Module PyStr.

(** Truth value of a [str]: empty strings are false. *)
Definition truthy (s : string) : bool :=
  match s with
  | EmptyString => false
  | String _ _ => true
  end.

(** [x or default], for [x] either [None] or a [str]. *)
Definition or_ (x : option string) (default : string) : string :=
  match x with
  | Some s => if truthy s then s else default
  | None => default
  end.

(** [str.isspace] on one character (code points below 256):
    TAB, LF, VT, FF, CR, FS, GS, RS, US, SPACE, NEL and NBSP. *)
Definition isspace (c : ascii) : bool :=
  let n := nat_of_ascii c in
  (((9 <=? n) && (n <=? 13)) || ((28 <=? n) && (n <=? 32))
   || (n =? 133) || (n =? 160))%nat.

Fixpoint lstrip (s : string) : string :=
  match s with
  | EmptyString => EmptyString
  | String c s' => if isspace c then lstrip s' else s
  end.

Fixpoint rstrip (s : string) : string :=
  match s with
  | EmptyString => EmptyString
  | String c s' =>
      match rstrip s' with
      | EmptyString => if isspace c then EmptyString else String c EmptyString
      | r => String c r
      end
  end.

(** [s.strip()] *)
Definition strip (s : string) : string := rstrip (lstrip s).

(** [sub in s]: substring test, tried at every position of [s]. *)
Fixpoint str_in (sub s : string) : bool :=
  prefix sub s ||
  match s with
  | EmptyString => false
  | String _ s' => str_in sub s'
  end.

(** [sep.join(parts)] *)
Definition join (sep : string) (parts : list string) : string :=
  String.concat sep parts.

(** [all(c.isspace() for c in s)] *)
Fixpoint all_space (s : string) : bool :=
  match s with
  | EmptyString => true
  | String c s' => isspace c && all_space s'
  end.

(** Every character of [s] satisfies [p]. *)
Fixpoint all_chars (p : ascii -> bool) (s : string) : bool :=
  match s with
  | EmptyString => true
  | String c s' => p c && all_chars p s'
  end.

(** [s] occurs inside [t]. *)
Definition Substring (s t : string) : Prop :=
  exists pre post, t = pre ++ s ++ post.

End PyStr.

(* ================================================================= *)
(** * Python dictionaries with string keys and values

    Insertion ordered, one entry per key. *)

Module PyDict.

Definition dict := list (string * string).

(** [d[k]], [None] standing for [KeyError]; also [d.get(k)]. *)
Fixpoint get (d : dict) (k : string) : option string :=
  match d with
  | [] => None
  | (k', v) :: d' => if k' =? k then Some v else get d' k
  end.

(** [d[k] = v]: overwrite in place, or append a new entry. *)
Fixpoint set (d : dict) (k v : string) : dict :=
  match d with
  | [] => [(k, v)]
  | (k', v') :: d' =>
      if k' =? k then (k', v) :: d' else (k', v') :: set d' k v
  end.

(** [list(d.keys())] *)
Definition keys (d : dict) : list string := map fst d.

End PyDict.

(* ================================================================= *)
(** * xml.etree.ElementTree *)

Module ET.

(** An [Element]: its tag, its [text] attribute ([None] when the element
    has no character data before its first child) and its children. *)
#[local] Unset Elimination Schemes.
Inductive Element : Type :=
| Elem (tag : string) (text : option string) (children : list Element).
#[local] Set Elimination Schemes.

Definition tag (e : Element) : string :=
  match e with Elem t _ _ => t end.
Definition text (e : Element) : option string :=
  match e with Elem _ x _ => x end.
Definition children (e : Element) : list Element :=
  match e with Elem _ _ cs => cs end.

(** [Element.iter(tag)]: the element itself when its tag matches, then
    the matches below each child, in document order. *)
Fixpoint iter (t : string) (e : Element) : list Element :=
  match e with
  | Elem t' _ cs =>
      ((if t' =? t then [e] else []) ++ flat_map (iter t) cs)%list
  end.

(** The steps of an ElementPath expression, after tokenisation. *)
Inductive selector : Type :=
| Self                          (* .      *)
| Child (t : string)            (* tag    *)
| Descendant (t : string).      (* //tag  *)

(** [prepare_descendant]: [for e in elem.iter(tag): if e is not elem:
    yield e].  [elem] can only be the first element that [iter] yields. *)
Definition descendants (t : string) (elem : Element) : list Element :=
  if tag elem =? t then tl (iter t elem) else iter t elem.

(** [prepare_child]: [for e in elem: if e.tag == tag: yield e]. *)
Definition child_matches (t : string) (elem : Element) : list Element :=
  filter (fun e => tag e =? t) (children elem).

Definition select (result : list Element) (s : selector) : list Element :=
  match s with
  | Self => result
  | Child t => flat_map (child_matches t) result
  | Descendant t => flat_map (descendants t) result
  end.

(** [ElementPath.iterfind]: [result = [elem]], then every selector in
    turn. *)
Definition iterfind (elem : Element) (path : list selector) : list Element :=
  fold_left select path [elem].

Definition findall := iterfind.

(** [elem.findtext(path)]: [None] without a match, [""] for a match
    whose text is [None]. *)
Definition findtext (elem : Element) (path : list selector) : option string :=
  match iterfind elem path with
  | [] => None
  | e :: _ => Some (match text e with None => "" | Some s => s end)
  end.

(** [elem.findtext(path, default)] with a [str] default. *)
Definition findtext_default (elem : Element) (path : list selector)
           (default : string) : string :=
  match findtext elem path with
  | Some s => s
  | None => default
  end.

(** All elements of the tree rooted at [e], in document order. *)
Fixpoint preorder (e : Element) : list Element :=
  match e with
  | Elem _ _ cs => e :: flat_map preorder cs
  end.

(** The elements strictly below [e], in document order. *)
Definition below (e : Element) : list Element := flat_map preorder (children e).

(** Number of elements tagged [t] in the tree rooted at [e]. *)
Fixpoint count_tag (t : string) (e : Element) : nat :=
  match e with
  | Elem t' _ cs =>
      (if t' =? t then 1 else 0) + list_sum (map (count_tag t) cs)
  end.

End ET.

(** The paths that [pubmed_utils.py] uses. *)
Definition path_PubmedArticle := [ET.Self; ET.Descendant "PubmedArticle"].
Definition path_PMID          := [ET.Self; ET.Descendant "PMID"].
Definition path_ArticleTitle  := [ET.Self; ET.Descendant "ArticleTitle"].
Definition path_PubDate_Day   := [ET.Self; ET.Descendant "PubDate"; ET.Child "Day"].
Definition path_PubDate_Month := [ET.Self; ET.Descendant "PubDate"; ET.Child "Month"].
Definition path_PubDate_Year  := [ET.Self; ET.Descendant "PubDate"; ET.Child "Year"].
Definition path_Author        := [ET.Self; ET.Descendant "Author"].
Definition path_LastName      := [ET.Child "LastName"].
Definition path_ForeName      := [ET.Child "ForeName"].
Definition path_Affiliation   := [ET.Self; ET.Descendant "Affiliation"].

(* ================================================================= *)
(** * re: the pattern [[\w.-]+@[\w.-]+]

    A backtracking matcher in continuation style.  A matcher takes the
    rest of the subject and answers the text matched from there on. *)

Module Re.

Definition matcher := string -> option string.

(** End of the pattern. *)
Definition accept : matcher := fun _ => Some "".

(** One literal character, then [k]. *)
Definition lit (c : ascii) (k : matcher) : matcher :=
  fun s =>
    match s with
    | String c' s' =>
        if Ascii.eqb c' c then option_map (String c') (k s') else None
    | EmptyString => None
    end.

(** [[cls]+], greedy: one character of the class, then as many more as
    possible, giving them back one at a time while [k] fails. *)
Fixpoint plus (cls : ascii -> bool) (k : matcher) (s : string) : option string :=
  match s with
  | String c s' =>
      if cls c then
        match plus cls k s' with
        | Some m => Some (String c m)
        | None => option_map (String c) (k s')
        end
      else None
  | EmptyString => None
  end.

(** [re.search(pattern, s)]: the match at the first position where the
    pattern matches, as [group(0)]. *)
Fixpoint search (pattern : matcher) (s : string) : option string :=
  match pattern s with
  | Some m => Some m
  | None =>
      match s with
      | String _ s' => search pattern s'
      | EmptyString => None
      end
  end.

(** [Py_UNICODE_ISALNUM] for code points below 256. *)
Definition isalnum (c : ascii) : bool :=
  let n := nat_of_ascii c in
  (((48 <=? n) && (n <=? 57)) || ((65 <=? n) && (n <=? 90))
   || ((97 <=? n) && (n <=? 122))
   || (n =? 170) || (n =? 178) || (n =? 179) || (n =? 181) || (n =? 185)
   || (n =? 186) || ((188 <=? n) && (n <=? 190))
   || ((192 <=? n) && (n <=? 214)) || ((216 <=? n) && (n <=? 246))
   || (248 <=? n))%nat.

(** [\w] *)
Definition word (c : ascii) : bool := isalnum c || Ascii.eqb c "_".

(** [[\w.-]] *)
Definition email_class (c : ascii) : bool :=
  word c || Ascii.eqb c "." || Ascii.eqb c "-".

(** [[\w.-]+@[\w.-]+] *)
Definition email_pattern : matcher :=
  plus email_class (lit "@" (plus email_class accept)).

End Re.

(* ================================================================= *)
(** * Exceptions, the outside world and the monad of effects *)

(** The exception classes that the module raises or catches.  A
    [RequestException] stands for the class and all its subclasses and
    carries [str(e)]. *)
Inductive exn : Type :=
| RequestException (msg : string)
| ValueError (msg : string)
| RuntimeError (msg : string)
| OSError (msg : string)
| TypeError
| KeyError (key : string).

(** JSON data as [json.loads] returns it. *)
#[local] Unset Elimination Schemes.
Inductive JSON : Type :=
| JNull
| JBool (b : bool)
| JNumber (literal : string)
| JString (s : string)
| JArray (items : list JSON)
| JObject (members : list (string * JSON)).
#[local] Set Elimination Schemes.

(** What [requests.get] hands back: [status_code], [reason], [url], [text]
    and the outcome of [json()], which is the decoded body or the exception
    of the decoder ([requests.exceptions.JSONDecodeError], a
    [RequestException], or a plain [ValueError] in older releases). *)
Record Response : Type := {
  status_code : Z;
  reason : string;
  url : string;
  text : string;
  json : exn + JSON
}.

Record Request : Type := {
  req_url : string;
  req_params : list (string * string)
}.

(** Arguments of [print]. *)
Inductive PyVal : Type :=
| VStr (s : string)
| VStrList (l : list string)
| VDictList (l : list PyDict.dict).

(** The world outside the module: the servers behind [requests.get]
    (what the n-th call answers to a request: an exception, given by its
    message, or a response), the calls made so far, the console, and the
    files written (a file is the list of records given to [csv.writer]). *)
Record World : Type := {
  net : nat -> Request -> string + Response;
  calls : list Request;
  stdout : list (list PyVal);
  writable : string -> bool;
  files : list (string * list (list string))
}.

(** The three ways in which the module changes the world. *)
Definition log_call (rq : Request) (w : World) : World :=
  {| net := net w; calls := (calls w ++ [rq])%list; stdout := stdout w;
     writable := writable w; files := files w |}.

Definition log_print (args : list PyVal) (w : World) : World :=
  {| net := net w; calls := calls w; stdout := (stdout w ++ [args])%list;
     writable := writable w; files := files w |}.

Definition set_files (fs : list (string * list (list string))) (w : World) : World :=
  {| net := net w; calls := calls w; stdout := stdout w;
     writable := writable w; files := fs |}.

Inductive Result (A : Type) : Type :=
| Ok (a : A)
| Err (e : exn).
Arguments Ok {A} a.
Arguments Err {A} e.

Definition M (A : Type) : Type := World -> Result A * World.

Definition ret {A} (a : A) : M A := fun w => (Ok a, w).

Definition raise {A} (e : exn) : M A := fun w => (Err e, w).

Definition bind {A B} (m : M A) (k : A -> M B) : M B :=
  fun w =>
    match m w with
    | (Ok a, w') => k a w'
    | (Err e, w') => (Err e, w')
    end.

Declare Scope py_scope.
Delimit Scope py_scope with py.
Notation "x <- m ;; k" := (bind m (fun x => k))
  (at level 61, m at next level, right associativity) : py_scope.
Notation "m ;; k" := (bind m (fun _ => k))
  (at level 61, right associativity) : py_scope.
Open Scope py_scope.

(** [try: body except ...: handler]; [handler e = None] when no [except]
    clause catches [e]. *)
Definition try_except {A} (body : M A) (handler : exn -> option (M A)) : M A :=
  fun w =>
    match body w with
    | (Ok a, w') => (Ok a, w')
    | (Err e, w') =>
        match handler e with
        | Some h => h w'
        | None => (Err e, w')
        end
    end.

(** [if cond: m] *)
Definition when (cond : bool) (m : M unit) : M unit :=
  if cond then m else ret tt.

(** [print(...)]: the arguments are recorded as given. *)
Definition print (args : list PyVal) : M unit :=
  fun w => (Ok tt, log_print args w).

(* ================================================================= *)
(** * requests *)

Module Requests.

(** [requests.get(url, params=params)] *)
Definition get (u : string) (params : list (string * string)) : M Response :=
  fun w =>
    let rq := {| req_url := u; req_params := params |} in
    match net w (List.length (calls w)) rq with
    | inl msg => (Err (RequestException msg), log_call rq w)
    | inr r => (Ok r, log_call rq w)
    end.

Definition str_of_int (z : Z) : string := NilZero.string_of_int (Z.to_int z).

(** [Response.raise_for_status]: an [HTTPError] for the 4xx and 5xx
    codes. *)
Definition raise_for_status (r : Response) : M unit :=
  let code := status_code r in
  if ((400 <=? code) && (code <? 500))%Z then
    raise (RequestException
             (str_of_int code ++ " Client Error: " ++ reason r
              ++ " for url: " ++ url r))
  else if ((500 <=? code) && (code <? 600))%Z then
    raise (RequestException
             (str_of_int code ++ " Server Error: " ++ reason r
              ++ " for url: " ++ url r))
  else ret tt.

End Requests.

(* ================================================================= *)
(** * Operators on decoded JSON *)

Module PyJson.

Fixpoint lookup (ms : list (string * JSON)) (k : string) : option JSON :=
  match ms with
  | [] => None
  | (k', v) :: ms' => if k' =? k then Some v else lookup ms' k
  end.

(** [key in data] for a [str] key: key of a dict, item of a list,
    substring of a str, [TypeError] for the rest. *)
Definition contains (key : string) (data : JSON) : M bool :=
  match data with
  | JObject ms =>
      ret (match lookup ms key with Some _ => true | None => false end)
  | JArray items =>
      ret (existsb (fun x => match x with
                             | JString s => s =? key
                             | _ => false
                             end) items)
  | JString s => ret (PyStr.str_in key s)
  | _ => raise TypeError
  end.

(** [data[key]] for a [str] key. *)
Definition getitem (data : JSON) (key : string) : M JSON :=
  match data with
  | JObject ms =>
      match lookup ms key with
      | Some v => ret v
      | None => raise (KeyError key)
      end
  | _ => raise TypeError
  end.

End PyJson.

(* ================================================================= *)
(** * csv.DictWriter and the output file *)

Module Csv.

Fixpoint update (fs : list (string * list (list string))) (name : string)
         (f : list (list string) -> list (list string))
  : list (string * list (list string)) :=
  match fs with
  | [] => [(name, f [])]
  | (n, c) :: fs' =>
      if n =? name then (n, f c) :: fs' else (n, c) :: update fs' name f
  end.

Definition update_file (name : string) (f : list (list string) -> list (list string))
           (w : World) : World :=
  set_files (update (files w) name f) w.

Fixpoint file_content (fs : list (string * list (list string))) (name : string)
  : option (list (list string)) :=
  match fs with
  | [] => None
  | (n, c) :: fs' => if n =? name then Some c else file_content fs' name
  end.

(** [open(filename, mode="w", ...)]: the file is created or truncated,
    or the call raises [OSError]. *)
Definition open_w (filename : string) : M unit :=
  fun w =>
    if writable w filename
    then (Ok tt, update_file filename (fun _ => []) w)
    else (Err (OSError filename), w).

(** [csv.writer.writerow(record)] on the file that is open. *)
Definition writer_writerow (filename : string) (record : list string) : M unit :=
  fun w => (Ok tt, update_file filename (fun c => (c ++ [record])%list) w).

(** [DictWriter._dict_to_list] with the defaults [extrasaction="raise"]
    and [restval=""]: keys outside [fieldnames] are refused, missing
    ones are filled with [restval].  The message names the extra keys
    (here as they are and in the order of the row; the library shows
    their [repr], in the order of a set). *)
Definition dict_to_list (fieldnames : list string) (rowdict : PyDict.dict)
  : M (list string) :=
  match filter (fun k => negb (existsb (String.eqb k) fieldnames))
               (PyDict.keys rowdict) with
  | [] =>
      ret (map (fun key => match PyDict.get rowdict key with
                           | Some v => v
                           | None => ""
                           end) fieldnames)
  | wrong_fields =>
      raise (ValueError ("dict contains fields not in fieldnames: "
                         ++ PyStr.join ", " wrong_fields))
  end.

(** [DictWriter.writeheader] *)
Definition writeheader (filename : string) (fieldnames : list string) : M unit :=
  writer_writerow filename fieldnames.

(** [DictWriter.writerows]: the rows are converted and written one by
    one. *)
Fixpoint writerows (filename : string) (fieldnames : list string)
         (rowdicts : list PyDict.dict) : M unit :=
  match rowdicts with
  | [] => ret tt
  | rowdict :: rest =>
      record <- dict_to_list fieldnames rowdict ;;
      writer_writerow filename record ;;
      writerows filename fieldnames rest
  end.

End Csv.

(* ================================================================= *)
(** * pubmed_utils.py *)

Definition PUBMED_BASE_URL := "https://eutils.ncbi.nlm.nih.gov/entrez/eutils/esearch.fcgi".
Definition PUBMED_FETCH_URL := "https://eutils.ncbi.nlm.nih.gov/entrez/eutils/efetch.fcgi".

(** ** [fetch_pubmed_ids] *)

(** [data = response.json()] *)
Definition response_json (response : Response) : M JSON :=
  match json response with
  | inl e => raise e
  | inr data => ret data
  end.

(** The check of the envelope and the [return] (lines 40 to 42):
    [Some idlist] is the value that the function returns. *)
Definition idlist_of (data : JSON) : M (option JSON) :=
  has_result <- PyJson.contains "esearchresult" data ;;
  missing <- (if negb has_result then ret true
              else (result <- PyJson.getitem data "esearchresult" ;;
                    has_idlist <- PyJson.contains "idlist" result ;;
                    ret (negb has_idlist))) ;;
  if (missing : bool)
  then raise (ValueError "Invalid response structure from PubMed API.")
  else (result <- PyJson.getitem data "esearchresult" ;;
        idlist <- PyJson.getitem result "idlist" ;;
        ret (Some idlist)).

(** One turn of [for attempt in range(3)] and the turns after it.  A turn
    answers [Some v] when the function returns [v], [None] when the loop
    goes on; after the last turn the function ends without [return]. *)
Fixpoint fetch_pubmed_ids_attempts (query : string) (debug : bool)
         (params : list (string * string)) (attempts : list nat)
  : M (option JSON) :=
  match attempts with
  | [] => ret None
  | attempt :: rest =>
      r <- try_except
             (response <- Requests.get PUBMED_BASE_URL params ;;
              Requests.raise_for_status response ;;
              when debug
                (print [VStr "Fetching PubMed IDs with query:"; VStr query] ;;
                 print [VStr "Response:"; VStr (text response)]) ;;
              data <- response_json response ;;
              idlist_of data)
             (fun e =>
                match e with
                | RequestException msg =>
                    Some (if (attempt <? 2)%nat
                          then print [VStr ("Retrying due to error: " ++ msg)] ;;
                               ret None
                          else raise (RuntimeError
                                        ("Failed to fetch PubMed IDs after 3 attempts: "
                                         ++ msg)))
                | _ => None
                end) ;;
      match r with
      | Some v => ret (Some v)
      | None => fetch_pubmed_ids_attempts query debug params rest
      end
  end.

(** The value [100] of ["retmax"] is written as it is sent. *)
Definition fetch_pubmed_ids (query : string) (debug : bool) : M (option JSON) :=
  if negb (PyStr.truthy (PyStr.strip query))
  then raise (ValueError "Query cannot be empty or whitespace.")
  else
    let params := [("db", "pubmed"); ("term", query);
                   ("retmode", "json"); ("retmax", "100")] in
    fetch_pubmed_ids_attempts query debug params (seq 0 3).

(** ** [filter_non_academic_authors] *)

Definition company_keywords : list string :=
  ["Inc"; "Ltd"; "Corp"; "Corporation"; "Pharma"; "Biotech";
   "Biopharma"; "HealthTech"; "Lab"; "Research Institute";
   "Company"; "Therapeutics"; "Healthcare"].

(** The entries [{"name": ..., "company": ...}]. *)
Record author_entry : Type := { name : string; company : string }.

(** [any(keyword in affiliation for keyword in company_keywords)] *)
Definition any_keyword (affiliation : string) : bool :=
  existsb (fun keyword => PyStr.str_in keyword affiliation) company_keywords.

Definition filter_non_academic_authors (authors affiliations : list string)
  : list author_entry :=
  fold_left
    (fun filtered_authors (p : string * string) =>
       let (name, affiliation) := p in
       if any_keyword affiliation
       then (filtered_authors ++ [{| name := name; company := affiliation |}])%list
       else filtered_authors)
    (combine authors affiliations) [].

(** ** [parse_paper_details] *)

(** The body of [for author in article.findall(".//Author")], on the
    variables it updates: [paper], [authors] and [affiliations]. *)
Definition author_step (st : PyDict.dict * list string * list string)
           (author : ET.Element) : PyDict.dict * list string * list string :=
  let '(paper, authors, affiliations) := st in
  let name := ET.findtext_default author path_LastName "" ++ ", "
              ++ ET.findtext_default author path_ForeName "" in
  let affiliation := ET.findtext_default author path_Affiliation "" in
  let paper :=
    match Re.search Re.email_pattern affiliation with
    | Some email => PyDict.set paper "Corresponding Author Email" email
    | None => paper
    end in
  (paper, (authors ++ [name])%list, (affiliations ++ [affiliation])%list).

(** The body of [for article in root.findall(".//PubmedArticle")]: the
    [paper] that is appended to [papers]. *)
Definition paper_of_article (article : ET.Element) : PyDict.dict :=
  let paper :=
    [("PubmedID", PyStr.or_ (ET.findtext article path_PMID) "Unknown");
     ("Title", PyStr.or_ (ET.findtext article path_ArticleTitle) "Unknown");
     ("Publication Date", "");
     ("Non-academic Author(s)", "None");
     ("Company Affiliation(s)", "None");
     ("Corresponding Author Email", "None")] in
  let day := ET.findtext_default article path_PubDate_Day "" in
  let month := ET.findtext_default article path_PubDate_Month "" in
  let year := ET.findtext_default article path_PubDate_Year "" in
  let paper :=
    if PyStr.truthy day && PyStr.truthy month && PyStr.truthy year
    then PyDict.set paper "Publication Date" (year ++ "/" ++ month ++ "/" ++ day)
    else if PyStr.truthy year
         then PyDict.set paper "Publication Date" year
         else paper in
  let '(paper, authors, affiliations) :=
    fold_left author_step (ET.findall article path_Author) (paper, [], []) in
  let non_academic_authors := filter_non_academic_authors authors affiliations in
  match non_academic_authors with
  | [] => paper
  | _ :: _ =>
      let paper := PyDict.set paper "Non-academic Author(s)"
                     (PyStr.join "; " (map name non_academic_authors)) in
      PyDict.set paper "Company Affiliation(s)"
        (PyStr.join "; " (map company non_academic_authors))
  end.

Section Parsing.

(** [ET.fromstring]: the root element, or the message of the
    [ParseError]. *)
Variable fromstring : string -> string + ET.Element.

Definition parse_paper_details (xml_data : string) (debug : bool)
  : M (list PyDict.dict) :=
  match fromstring xml_data with
  | inl e => raise (ValueError ("Failed to parse XML data: " ++ e))
  | inr root =>
      let papers :=
        fold_left (fun papers article => (papers ++ [paper_of_article article])%list)
                  (ET.findall root path_PubmedArticle) [] in
      when debug (print [VStr "Parsed Papers:"; VDictList papers]) ;;
      ret papers
  end.

(** ** [fetch_paper_details] *)

Fixpoint fetch_paper_details_attempts (pubmed_ids : list string) (debug : bool)
         (params : list (string * string)) (attempts : list nat)
  : M (option (list PyDict.dict)) :=
  match attempts with
  | [] => ret None
  | attempt :: rest =>
      r <- try_except
             (response <- Requests.get PUBMED_FETCH_URL params ;;
              Requests.raise_for_status response ;;
              when debug
                (print [VStr "Fetching details for PubMed IDs:"; VStrList pubmed_ids] ;;
                 print [VStr "Response:"; VStr (text response)]) ;;
              papers <- parse_paper_details (text response) debug ;;
              ret (Some papers))
             (fun e =>
                match e with
                | RequestException msg =>
                    Some (if (attempt <? 2)%nat
                          then print [VStr ("Retrying due to error: " ++ msg)] ;;
                               ret None
                          else raise (RuntimeError
                                        ("Failed to fetch paper details after 3 attempts: "
                                         ++ msg)))
                | _ => None
                end) ;;
      match r with
      | Some v => ret (Some v)
      | None => fetch_paper_details_attempts pubmed_ids debug params rest
      end
  end.

Definition fetch_paper_details (pubmed_ids : list string) (debug : bool)
  : M (option (list PyDict.dict)) :=
  match pubmed_ids with
  | [] => ret (Some [])
  | _ :: _ =>
      let params := [("db", "pubmed"); ("id", PyStr.join "," pubmed_ids);
                     ("retmode", "xml")] in
      fetch_paper_details_attempts pubmed_ids debug params (seq 0 3)
  end.

End Parsing.

(** ** [save_to_csv] *)

Definition fieldnames : list string :=
  ["PubmedID"; "Title"; "Publication Date"; "Non-academic Author(s)";
   "Company Affiliation(s)"; "Corresponding Author Email"].

Definition save_to_csv (filename : string) (papers : list PyDict.dict) : M unit :=
  Csv.open_w filename ;;
  Csv.writeheader filename fieldnames ;;
  Csv.writerows filename fieldnames papers.

(* ================================================================= *)
(** * Notions that the properties are stated with *)

(** The display name and the affiliation that [author_step] computes for
    an author element. *)
Definition author_name (author : ET.Element) : string :=
  ET.findtext_default author path_LastName "" ++ ", "
  ++ ET.findtext_default author path_ForeName "".

Definition author_affiliation (author : ET.Element) : string :=
  ET.findtext_default author path_Affiliation "".

(** The author elements of a record, in document order. *)
Definition authors_of (article : ET.Element) : list ET.Element :=
  ET.findall article path_Author.

(** The date parts of a record, [""] when absent. *)
Definition pub_day (article : ET.Element) : string :=
  ET.findtext_default article path_PubDate_Day "".
Definition pub_month (article : ET.Element) : string :=
  ET.findtext_default article path_PubDate_Month "".
Definition pub_year (article : ET.Element) : string :=
  ET.findtext_default article path_PubDate_Year "".

(** Induction on an element with the property at hand for all its
    children. *)
Fixpoint Element_induction (P : ET.Element -> Prop)
         (step : forall t x cs, Forall P cs -> P (ET.Elem t x cs))
         (e : ET.Element) : P e :=
  match e with
  | ET.Elem t x cs =>
      step t x cs
        ((fix all (l : list ET.Element) : Forall P l :=
            match l with
            | [] => Forall_nil P
            | c :: l' => Forall_cons c (@Element_induction P step c) (all l')
            end) cs)
  end.

(** The assignment to [paper] in [author_step]. *)
Definition set_email (paper : PyDict.dict) (author : ET.Element) : PyDict.dict :=
  match Re.search Re.email_pattern (author_affiliation author) with
  | Some email => PyDict.set paper "Corresponding Author Email" email
  | None => paper
  end.

(** The e-mail field after the loop over [authors], from [current]. *)
Definition email_after (authors : list ET.Element) (current : string) : string :=
  fold_left (fun cur author =>
               match Re.search Re.email_pattern (author_affiliation author) with
               | Some email => email
               | None => cur
               end) authors current.

(** The texts [first], [x1], ..., [xn] written one after the other with
    [sep] between neighbours. *)
Fixpoint separated (sep first : string) (rest : list string) : string :=
  match rest with
  | [] => first
  | x :: rest' => first ++ sep ++ separated sep x rest'
  end.

(** The authors of a record whose affiliation holds a company keyword,
    in document order. *)
Definition flagged_authors (article : ET.Element) : list ET.Element :=
  filter (fun author => any_keyword (author_affiliation author)) (authors_of article).



(** The record elements of a document: the elements tagged
    [PubmedArticle] strictly below the root, in document order. *)
Definition is_record (e : ET.Element) : bool := ET.tag e =? "PubmedArticle".

Definition records_below (root : ET.Element) : list ET.Element :=
  filter is_record (ET.below root).

(** The message of the [HTTPError] that [raise_for_status] raises for a
    4xx or 5xx response. *)
Definition http_error_msg (r : Response) : string :=
  Requests.str_of_int (status_code r)
  ++ (if (status_code r <? 500)%Z then " Client Error: " else " Server Error: ")
  ++ reason r ++ " for url: " ++ url r.

(** A transport failure of one attempt, with [str(e)] of the
    [RequestException]: [requests.get] raises, or the status is 4xx or
    5xx. *)
Definition transport_failure (outcome : string + Response) : option string :=
  match outcome with
  | inl msg => Some msg
  | inr r =>
      if ((400 <=? status_code r) && (status_code r <? 600))%Z
      then Some (http_error_msg r)
      else None
  end.

(** The requests that the two functions send. *)
Definition search_request (query : string) : Request :=
  {| req_url := PUBMED_BASE_URL;
     req_params := [("db", "pubmed"); ("term", query);
                    ("retmode", "json"); ("retmax", "100")] |}.

Definition fetch_request (pubmed_ids : list string) : Request :=
  {| req_url := PUBMED_FETCH_URL;
     req_params := [("db", "pubmed"); ("id", PyStr.join "," pubmed_ids);
                    ("retmode", "xml")] |}.

(** The outcome of the [k]-th call from world [w] on. *)
Definition nth_outcome (w : World) (k : nat) (rq : Request) : string + Response :=
  net w (List.length (calls w) + k) rq.

(** ** Sample inputs *)

Definition leaf (t x : string) : ET.Element := ET.Elem t (Some x) [].

Definition sample_author (last fore affiliation : string) : ET.Element :=
  ET.Elem "Author" None
    [leaf "LastName" last; leaf "ForeName" fore;
     ET.Elem "AffiliationInfo" None [leaf "Affiliation" affiliation]].

(** A record dated with a year and a month, without a day. *)
Definition sample_article : ET.Element :=
  ET.Elem "PubmedArticle" None
    [ET.Elem "MedlineCitation" None
       [leaf "PMID" "31452104";
        ET.Elem "Article" None
          [ET.Elem "Journal" None
             [ET.Elem "JournalIssue" None
                [ET.Elem "PubDate" None [leaf "Year" "2020"; leaf "Month" "Jan"]]];
           leaf "ArticleTitle" "A trial";
           ET.Elem "AuthorList" None
             [sample_author "Doe" "Jane" "BioLab Corp, contact: jane.doe@acme.com";
              sample_author "Roe" "Rick" "Dept. of Biology, Stanford University";
              sample_author "Poe" "Ed" "Acme Pharma Inc, Boston. ed@acme.com"]]]].

(** A record element as the root of a document, a document with one
    record, and a document without records. *)
Definition root_record : ET.Element :=
  ET.Elem "PubmedArticle" None [leaf "PMID" "1"].

Definition one_record_document : ET.Element :=
  ET.Elem "PubmedArticleSet" None [root_record].

Definition empty_document : ET.Element :=
  ET.Elem "PubmedArticleSet" None [].

(** [ET.fromstring] on four inputs: the three documents above and a text
    that is not XML; any other text is answered like the last. *)
Definition sample_fromstring (xml : string) : string + ET.Element :=
  if xml =? "<PubmedArticle><PMID>1</PMID></PubmedArticle>"
  then inr root_record
  else if xml =? "<PubmedArticleSet><PubmedArticle><PMID>1</PMID></PubmedArticle></PubmedArticleSet>"
  then inr one_record_document
  else if xml =? "<PubmedArticleSet></PubmedArticleSet>"
  then inr empty_document
  else inl "syntax error: line 1, column 0".

Definition sample_response (code : Z) (why body : string) (decoded : exn + JSON)
  : Response :=
  {| status_code := code; reason := why; url := PUBMED_BASE_URL;
     text := body; json := decoded |}.

(** A world in which nothing has happened yet. *)
Definition fresh_world (servers : nat -> Request -> string + Response) : World :=
  {| net := servers; calls := []; stdout := [];
     writable := fun _ => true; files := [] |}.

(** No server can be reached. *)
Definition world_down : World :=
  fresh_world (fun _ _ => inl "Connection refused").

(** The servers answer 300 with a body that holds an identifier list. *)
Definition world_multiple_choices : World :=
  fresh_world
    (fun _ _ =>
       inr (sample_response 300 "Multiple Choices" "{}"
              (inr (JObject [("esearchresult",
                              JObject [("idlist", JArray [JString "1"])])])))).

(** The servers answer 200 with an envelope whose ["esearchresult"] is
    null. *)
Definition world_null_result : World :=
  fresh_world
    (fun _ _ =>
       inr (sample_response 200 "OK" "{}"
              (inr (JObject [("esearchresult", JNull)])))).

(** The servers answer 503 once, then 200 with a body without the
    envelope (for the search) that is also a document with one record
    (for the fetch). *)
Definition world_flaky : World :=
  fresh_world
    (fun n _ =>
       if (n <? 1)%nat
       then inr (sample_response 503 "Service Unavailable" "" (inl (ValueError "")))
       else inr (sample_response 200 "OK"
                   "<PubmedArticleSet><PubmedArticle><PMID>1</PMID></PubmedArticle></PubmedArticleSet>"
                   (inr (JObject [("header", JObject [])])))).

(** The servers answer 200 with a document of one record (for the fetch)
    and an envelope with one identifier (for the search). *)
Definition world_up : World :=
  fresh_world
    (fun _ _ =>
       inr (sample_response 200 "OK"
              "<PubmedArticleSet><PubmedArticle><PMID>1</PMID></PubmedArticle></PubmedArticleSet>"
              (inr (JObject [("esearchresult",
                              JObject [("idlist", JArray [JString "1"])])])))).

(** ** Notions for the retry loops *)

(** The first attempts from [w] on fail, with these messages. *)
Definition failures (w : World) (rq : Request) (msgs : list string) : Prop :=
  forall i msg,
    nth_error msgs i = Some msg ->
    transport_failure (nth_outcome w i rq) = Some msg.

(** A decoded body without the envelope: an object without
    ["esearchresult"], or whose ["esearchresult"] is an object without
    ["idlist"]. *)
Definition lacks_idlist (data : JSON) : Prop :=
  exists members,
    data = JObject members
    /\ (PyJson.lookup members "esearchresult" = None
        \/ exists result,
             PyJson.lookup members "esearchresult" = Some (JObject result)
             /\ PyJson.lookup result "idlist" = None).

(** An outcome that ends the loop: a returned value, or an exception that
    the [except] clause does not catch. *)
Definition final {A} (res : Result (option A)) : Prop :=
  match res with
  | Ok (Some _) => True
  | Ok None => False
  | Err (RequestException _) => False
  | Err _ => True
  end.

(* ================================================================= *)
(** * main.py *)

(** The namespace that [parser.parse_args()] returns: the positional
    [query], [--file] ([None] by default) and [--debug]. *)
Record Args : Type := {
  arg_query : string;
  arg_file : option string;
  arg_debug : bool
}.

(** The items of a list whose items are all [str]. *)
Fixpoint strings_of (items : list JSON) : option (list string) :=
  match items with
  | [] => Some []
  | JString s :: rest =>
      match strings_of rest with
      | Some l => Some (s :: l)
      | None => None
      end
  | _ :: _ => None
  end.

(** The value that [fetch_pubmed_ids] hands over, when it is a list of
    [str] as the annotation of the function says. *)
Definition as_str_list (v : option JSON) : option (list string) :=
  match v with
  | Some (JArray items) => strings_of items
  | _ => None
  end.

Section MainProgram.

Variable fromstring : string -> string + ET.Element.

(** [fetch_paper_details(v, debug)] for a [v] that is not a list of [str]:
    [fetch_paper_details] above is the function on lists of [str]; what it
    does with any other value is left open. *)
Variable fetch_paper_details_untyped :
  option JSON -> bool -> M (option (list PyDict.dict)).

(** [str(paper)], the text that [print(paper)] writes, and [str(e)] for
    the exceptions that reach the last [except] clause. *)
Variable str_of_dict : PyDict.dict -> string.
Variable str_of_exn : exn -> string.

(** [for paper in papers: print(paper)] *)
Fixpoint print_each (papers : list PyDict.dict) : M unit :=
  match papers with
  | [] => ret tt
  | paper :: rest => print [VStr (str_of_dict paper)] ;; print_each rest
  end.

(** The body of the [try] statement.  A [papers] that is [None] is not
    iterable: [TypeError], in [writerows] after the header was written or
    in the [for] statement. *)
Definition main_body (args : Args) : M unit :=
  pubmed_ids <- fetch_pubmed_ids (arg_query args) (arg_debug args) ;;
  papers <- match as_str_list pubmed_ids with
            | Some ids => fetch_paper_details fromstring ids (arg_debug args)
            | None => fetch_paper_details_untyped pubmed_ids (arg_debug args)
            end ;;
  match arg_file args with
  | Some (String c f) =>
      match papers with
      | Some rows => save_to_csv (String c f) rows
      | None => Csv.open_w (String c f) ;;
                Csv.writeheader (String c f) fieldnames ;;
                raise TypeError
      end ;;
      print [VStr ("Results saved to " ++ String c f)]
  | _ =>
      match papers with
      | Some rows => print_each rows
      | None => raise TypeError
      end
  end.

(** The three [except] clauses. *)
Definition main_handler (e : exn) : option (M unit) :=
  match e with
  | ValueError msg => Some (print [VStr ("Input Error: " ++ msg)])
  | RuntimeError msg => Some (print [VStr ("Runtime Error: " ++ msg)])
  | _ => Some (print [VStr "An unexpected error occurred:"; VStr (str_of_exn e)])
  end.

Definition main (args : Args) : M unit :=
  if negb (PyStr.truthy (PyStr.strip (arg_query args)))
  then print [VStr "Error: Query cannot be empty or whitespace."]
  else try_except (main_body args) main_handler.

End MainProgram.

(** ** Notions for the further properties *)

(** The first element tagged [t] strictly below [e], in document order. *)
Definition first_below (t : string) (e : ET.Element) : option ET.Element :=
  hd_error (filter (fun x => ET.tag x =? t) (ET.below e)).

(** The text of an element when it is there and not empty. *)
Definition text_or_unknown (e : option ET.Element) : string :=
  match e with
  | Some (ET.Elem _ (Some (String c s)) _) => String c s
  | _ => "Unknown"
  end.

(** The world without its console. *)
Definition silence (w : World) : World :=
  {| net := net w; calls := calls w; stdout := [];
     writable := writable w; files := files w |}.

(** What an attempt of either loop leaves alone: the servers, which files
    can be opened, and the files; the calls can only grow. *)
Definition frames {A} (m : M A) : Prop :=
  forall w,
    net (snd (m w)) = net w
    /\ writable (snd (m w)) = writable w
    /\ files (snd (m w)) = files w
    /\ exists cs, calls (snd (m w)) = (calls w ++ cs)%list.

(** The diagnostic output of one attempt of the search and of the fetch
    under the debug flag. *)
Definition search_echo (query : string) (debug : bool) (r : Response) (w : World)
  : World :=
  if debug
  then log_print [VStr "Response:"; VStr (text r)]
         (log_print [VStr "Fetching PubMed IDs with query:"; VStr query] w)
  else w.

Definition fetch_echo (pubmed_ids : list string) (debug : bool) (r : Response)
           (w : World) : World :=
  if debug
  then log_print [VStr "Response:"; VStr (text r)]
         (log_print [VStr "Fetching details for PubMed IDs:"; VStrList pubmed_ids] w)
  else w.

(** The notice of a retry. *)
Definition retry_notice (msg : string) (w : World) : World :=
  log_print [VStr ("Retrying due to error: " ++ msg)] w.

(** After an attempt that failed with [msg]: the notice and the attempts
    that are left, or the [RuntimeError] when it was the last one. *)
Definition lookup_retry (query : string) (debug : bool) (attempt : nat)
           (rest : list nat) (msg : string) (w : World)
  : Result (option JSON) * World :=
  if (attempt <? 2)%nat
  then fetch_pubmed_ids_attempts query debug (req_params (search_request query))
         rest (retry_notice msg w)
  else (Err (RuntimeError ("Failed to fetch PubMed IDs after 3 attempts: " ++ msg)), w).

Definition fetch_retry (fromstring : string -> string + ET.Element)
           (pubmed_ids : list string) (debug : bool) (attempt : nat)
           (rest : list nat) (msg : string) (w : World)
  : Result (option (list PyDict.dict)) * World :=
  if (attempt <? 2)%nat
  then fetch_paper_details_attempts fromstring pubmed_ids debug
         (req_params (fetch_request pubmed_ids)) rest (retry_notice msg w)
  else (Err (RuntimeError ("Failed to fetch paper details after 3 attempts: " ++ msg)),
        w).

(** A response that passes [raise_for_status] and whose [json()] raises a
    [RequestException], with [str(e)]. *)
Definition decode_failure (outcome : string + Response) : option string :=
  match outcome with
  | inl _ => None
  | inr r =>
      match transport_failure (inr r), json r with
      | None, inl (RequestException msg) => Some msg
      | _, _ => None
      end
  end.

(** JSON values that are neither an object, an array nor a string. *)
Definition not_a_container (data : JSON) : bool :=
  match data with
  | JNull | JBool _ | JNumber _ => true
  | _ => false
  end.

(** The servers answer 200 with a body that is the JSON number 5. *)
Definition world_number : World :=
  fresh_world (fun _ _ => inr (sample_response 200 "OK" "5" (inr (JNumber "5")))).

(** The servers answer 200 with a body that is not JSON; [json()] raises
    the [JSONDecodeError] of [requests]. *)
Definition world_not_json : World :=
  fresh_world
    (fun _ _ =>
       inr (sample_response 200 "OK" "<html>"
              (inl (RequestException "Expecting value: line 1 column 1 (char 0)")))).

(** The record that [DictWriter] writes for a row: the value of each
    field of the header, [""] for a field that the row lacks. *)
Definition cells_of (rowdict : PyDict.dict) : list string :=
  map (fun key => match PyDict.get rowdict key with
                  | Some v => v
                  | None => ""
                  end) fieldnames.

(** A row whose keys are all fields of the header. *)
Definition within_header (rowdict : PyDict.dict) : Prop :=
  forall k, In k (PyDict.keys rowdict) -> In k fieldnames.

(** Stand-ins for the parts of [main] that are left open: a call with an
    ill-typed list raises [TypeError]; a row is shown by its values; an
    exception of the last clause by a fixed text. *)
Definition sample_untyped (v : option JSON) (debug : bool)
  : M (option (list PyDict.dict)) := raise TypeError.

Definition sample_str_of_dict (d : PyDict.dict) : string :=
  PyStr.join ", " (map snd d).

Definition sample_str_of_exn (e : exn) : string := "error".

Definition sample_args (file : option string) : Args :=
  {| arg_query := "cancer"; arg_file := file; arg_debug := false |}.

(** The console line of a row. *)
Definition row_line (str_of_dict : PyDict.dict -> string) (row : PyDict.dict)
  : list PyVal := [VStr (str_of_dict row)].

(** The servers answer 200 with an envelope whose identifier list is
    empty. *)
Definition world_no_match : World :=
  fresh_world
    (fun _ _ =>
       inr (sample_response 200 "OK" "{}"
              (inr (JObject [("esearchresult", JObject [("idlist", JArray [])])])))).

(** The last character of a string. *)
Fixpoint last_char (s : string) : option ascii :=
  match s with
  | EmptyString => None
  | String c EmptyString => Some c
  | String _ s' => last_char s'
  end.

Definition first_char (s : string) : option ascii :=
  match s with
  | EmptyString => None
  | String c _ => Some c
  end.

(** A character that the e-mail pattern cannot step over. *)
Definition stops_email (c : option ascii) : Prop :=
  match c with
  | None => True
  | Some c => Re.email_class c = false
  end.

(* ================================================================= *)
(** * Facts about strings *)

Section StringFacts.


Lemma append_assoc (a b c : string) : (a ++ b) ++ c = a ++ (b ++ c).
Proof. induction a as [|x a IH]; simpl; congruence. Qed.

Lemma prefix_append (p s : string) : prefix p (p ++ s) = true.
Proof.
  induction p as [|c p IH]; simpl.
  - now destruct s.
  - destruct (ascii_dec c c); [exact IH | congruence].
Qed.

Lemma prefix_split (p s : string) :
  prefix p s = true -> exists post, s = p ++ post.
Proof.
  revert s; induction p as [|c p IH]; intros s H.
  - now exists s.
  - destruct s as [|d s]; simpl in H; [discriminate|].
    destruct (ascii_dec c d) as [->|]; [|discriminate].
    destruct (IH _ H) as [post ->]. now exists post.
Qed.

Lemma str_in_unfold (sub s : string) :
  PyStr.str_in sub s =
  prefix sub s || match s with
                  | EmptyString => false
                  | String _ s' => PyStr.str_in sub s'
                  end.
Proof. now destruct s. Qed.

Lemma str_in_Substring (sub s : string) :
  PyStr.str_in sub s = true <-> PyStr.Substring sub s.
Proof.
  split.
  - induction s as [|c s IH]; rewrite str_in_unfold; intros H;
      apply orb_true_iff in H as [H|H].
    + apply prefix_split in H as [post ->]. now exists "", post.
    + discriminate.
    + apply prefix_split in H as [post ->]. now exists "", post.
    + destruct (IH H) as (pre & post & ->). now exists (String c pre), post.
  - intros (pre & post & ->).
    induction pre as [|c pre IH]; rewrite str_in_unfold.
    + simpl. now rewrite prefix_append.
    + simpl. rewrite IH. apply orb_true_r.
Qed.

Lemma lstrip_empty (s : string) :
  PyStr.lstrip s = "" <-> PyStr.all_space s = true.
Proof.
  induction s as [|c s IH]; simpl; [tauto|].
  destruct (PyStr.isspace c); simpl; [exact IH|].
  split; discriminate.
Qed.

Lemma rstrip_empty (s : string) :
  PyStr.rstrip s = "" <-> PyStr.all_space s = true.
Proof.
  induction s as [|c s IH]; simpl; [tauto|].
  destruct (PyStr.rstrip s) eqn:E.
  - destruct (PyStr.isspace c); simpl.
    + tauto.
    + split; discriminate.
  - rewrite andb_true_iff. split; [discriminate|].
    intros [_ H]. apply IH in H. discriminate.
Qed.

Lemma all_space_lstrip (s : string) :
  PyStr.all_space (PyStr.lstrip s) = PyStr.all_space s.
Proof.
  induction s as [|c s IH]; simpl; [reflexivity|].
  destruct (PyStr.isspace c) eqn:E; simpl; [exact IH|].
  now rewrite E.
Qed.

(** [not query.strip()] holds exactly for the strings made of white
    space only, the empty one included. *)
Lemma strip_falsy (s : string) :
  negb (PyStr.truthy (PyStr.strip s)) = PyStr.all_space s.
Proof.
  unfold PyStr.strip.
  destruct (PyStr.all_space s) eqn:E.
  - rewrite <- all_space_lstrip in E. apply rstrip_empty in E. now rewrite E.
  - destruct (PyStr.rstrip (PyStr.lstrip s)) eqn:R; [|reflexivity].
    apply rstrip_empty in R. rewrite all_space_lstrip in R. congruence.
Qed.

End StringFacts.

(* ================================================================= *)
(** * Facts about lists and loops that append *)

Section LoopFacts.

Context {A B : Type}.

(** A loop that appends [f x] for the [x] that pass [keep] builds
    [map f (filter keep l)] after what was there before. *)
Lemma fold_left_append_if (keep : A -> bool) (f : A -> B) (l : list A) (acc : list B) :
  fold_left (fun acc x => if keep x then (acc ++ [f x])%list else acc) l acc
  = (acc ++ map f (filter keep l))%list.
Proof.
  revert acc; induction l as [|x l IH]; intros acc; simpl.
  - now rewrite app_nil_r.
  - rewrite IH. destruct (keep x); simpl; [|reflexivity].
    now rewrite <- app_assoc.
Qed.

Lemma fold_left_append (f : A -> B) (l : list A) (acc : list B) :
  fold_left (fun acc x => (acc ++ [f x])%list) l acc = (acc ++ map f l)%list.
Proof.
  revert acc; induction l as [|x l IH]; intros acc; simpl.
  - now rewrite app_nil_r.
  - rewrite IH. now rewrite <- app_assoc.
Qed.

Lemma fold_left_ext (f g : B -> A -> B) (l : list A) (acc : B) :
  (forall acc x, f acc x = g acc x) -> fold_left f l acc = fold_left g l acc.
Proof.
  intros H. revert acc; induction l as [|x l IH]; intros acc; simpl.
  - reflexivity.
  - now rewrite H, IH.
Qed.

Lemma combine_nth_error (l : list A) (l' : list B) (i : nat) (x : A) (y : B) :
  nth_error l i = Some x -> nth_error l' i = Some y -> In (x, y) (combine l l').
Proof.
  revert l l'; induction i as [|i IH]; intros [|a l] [|b l']; simpl;
    try discriminate.
  - intros [= ->] [= ->]. now left.
  - intros H H'. right. now apply IH.
Qed.

Lemma in_combine_nth_error (l : list A) (l' : list B) (x : A) (y : B) :
  In (x, y) (combine l l') ->
  exists i, nth_error l i = Some x /\ nth_error l' i = Some y.
Proof.
  revert l'; induction l as [|a l IH]; intros [|b l']; simpl; try tauto.
  intros [[= -> ->]|H].
  - now exists 0.
  - destruct (IH _ H) as (i & Hi & Hi'). now exists (S i).
Qed.

End LoopFacts.

(* ================================================================= *)
(** * Classification of authors *)

Lemma any_keyword_iff (affiliation : string) :
  any_keyword affiliation = true <->
  exists kw, In kw company_keywords /\ PyStr.Substring kw affiliation.
Proof.
  unfold any_keyword. rewrite existsb_exists.
  split; intros (kw & Hin & H); exists kw; split; trivial;
    now apply str_in_Substring.
Qed.

(** The loop of [filter_non_academic_authors] keeps, in order, the pairs
    whose affiliation holds a keyword. *)
Lemma filter_non_academic_authors_eq (authors affiliations : list string) :
  filter_non_academic_authors authors affiliations
  = map (fun p => {| name := fst p; company := snd p |})
        (filter (fun p => any_keyword (snd p)) (combine authors affiliations)).
Proof.
  unfold filter_non_academic_authors.
  rewrite <- (app_nil_l (map _ _)).
  rewrite <- fold_left_append_if.
  apply fold_left_ext. now intros acc [n a].
Qed.

(* ================================================================= *)
(** * The e-mail pattern *)

Section PatternFacts.

Variable cls : ascii -> bool.
Variable k : Re.matcher.

(** What [plus] matches: a non-empty run of the class, then what the
    continuation matches. *)
Lemma plus_sound (s m : string) :
  Re.plus cls k s = Some m ->
  exists l rest m', s = l ++ rest /\ l <> "" /\ PyStr.all_chars cls l = true
                    /\ k rest = Some m' /\ m = l ++ m'.
Proof.
  revert m; induction s as [|c s IH]; intros m; simpl; [discriminate|].
  destruct (cls c) eqn:Hc; [|discriminate].
  destruct (Re.plus cls k s) as [m1|] eqn:Hp.
  - intros [= <-].
    destruct (IH _ eq_refl) as (l & rest & m' & -> & _ & Hl & Hk & ->).
    exists (String c l), rest, m'. simpl. rewrite Hc, Hl.
    repeat split; trivial; discriminate.
  - destruct (k s) as [m'|] eqn:Hk; simpl; [|discriminate].
    intros [= <-]. exists (String c ""), s, m'. simpl. rewrite Hc.
    repeat split; trivial; discriminate.
Qed.


End PatternFacts.

Lemma lit_sound (c : ascii) (k : Re.matcher) (s m : string) :
  Re.lit c k s = Some m ->
  exists rest m', s = String c rest /\ k rest = Some m' /\ m = String c m'.
Proof.
  destruct s as [|c' s]; simpl; [discriminate|].
  destruct (Ascii.eqb_spec c' c) as [->|]; [|discriminate].
  destruct (k s) as [m'|] eqn:Hk; simpl; [|discriminate].
  intros [= <-]. eauto.
Qed.






(* ================================================================= *)
(** * Element trees and paths *)

Section TreeFacts.

Variable t : string.

Let has_tag (e : ET.Element) : bool := ET.tag e =? t.

Lemma filter_flat_map {A B} (p : B -> bool) (f : A -> list B) (l : list A) :
  filter p (flat_map f l) = flat_map (fun x => filter p (f x)) l.
Proof.
  induction l as [|x l IH]; simpl; [reflexivity|].
  now rewrite filter_app, IH.
Qed.

Lemma flat_map_Forall_ext {A B} (f g : A -> list B) (l : list A) :
  Forall (fun x => f x = g x) l -> flat_map f l = flat_map g l.
Proof. induction 1 as [|x l H _ IH]; simpl; congruence. Qed.

(** [iter] yields the elements with the tag in document order. *)
Lemma iter_preorder (e : ET.Element) :
  ET.iter t e = filter has_tag (ET.preorder e).
Proof.
  induction e as [t' x cs IH] using Element_induction.
  simpl. unfold has_tag at 1. simpl.
  rewrite filter_flat_map, (flat_map_Forall_ext _ _ IH).
  now destruct (t' =? t).
Qed.

(** [//tag] yields the elements with the tag strictly below. *)
Lemma descendants_below (e : ET.Element) :
  ET.descendants t e = filter has_tag (ET.below e).
Proof.
  unfold ET.descendants, ET.below. destruct e as [t' x cs]. simpl.
  rewrite filter_flat_map.
  rewrite (flat_map_Forall_ext (ET.iter t) (fun c => filter has_tag (ET.preorder c))).
  - now destruct (t' =? t).
  - apply Forall_forall. intros c _. apply iter_preorder.
Qed.

Lemma findall_descendants (e : ET.Element) :
  ET.findall e [ET.Self; ET.Descendant t] = filter has_tag (ET.below e).
Proof.
  unfold ET.findall, ET.iterfind. simpl.
  now rewrite app_nil_r, descendants_below.
Qed.

Lemma count_tag_preorder (e : ET.Element) :
  List.length (filter has_tag (ET.preorder e)) = ET.count_tag t e.
Proof.
  induction e as [t' x cs IH] using Element_induction.
  simpl. unfold has_tag at 1. simpl.
  assert (H : List.length (filter has_tag (flat_map ET.preorder cs))
              = list_sum (map (ET.count_tag t) cs)).
  { induction IH as [|c cs Hc _ IHcs]; simpl; [reflexivity|].
    now rewrite filter_app, length_app, Hc, IHcs. }
  destruct (t' =? t); simpl; now rewrite H.
Qed.

Lemma count_tag_below (e : ET.Element) :
  List.length (filter has_tag (ET.below e))
  = list_sum (map (ET.count_tag t) (ET.children e)).
Proof.
  unfold ET.below. induction (ET.children e) as [|c cs IH]; simpl; [reflexivity|].
  now rewrite filter_app, length_app, count_tag_preorder, IH.
Qed.

End TreeFacts.

(* ================================================================= *)
(** * Dictionaries *)

Section DictFacts.

Lemma get_set (d : PyDict.dict) (k v k' : string) :
  PyDict.get (PyDict.set d k v) k' = if k =? k' then Some v else PyDict.get d k'.
Proof.
  induction d as [|[k0 v0] d IH]; simpl.
  - reflexivity.
  - destruct (String.eqb_spec k0 k) as [->|Hk]; simpl.
    + now destruct (k =? k').
    + rewrite IH.
      destruct (String.eqb_spec k0 k') as [->|]; trivial.
      destruct (String.eqb_spec k k'); congruence.
Qed.

End DictFacts.

(* ================================================================= *)
(** * One record *)

Section RecordFacts.

Lemma author_loop (l : list ET.Element) (paper : PyDict.dict)
      (authors affiliations : list string) :
  fold_left author_step l (paper, authors, affiliations)
  = (fold_left set_email l paper,
     (authors ++ map author_name l)%list,
     (affiliations ++ map author_affiliation l)%list).
Proof.
  revert paper authors affiliations.
  induction l as [|a l IH]; intros paper authors affiliations; simpl.
  - now rewrite !app_nil_r.
  - rewrite IH, <- !app_assoc. reflexivity.
Qed.

Lemma set_last (pre : PyDict.dict) (k v v' : string) :
  ~ In k (PyDict.keys pre) ->
  PyDict.set (pre ++ [(k, v)])%list k v' = (pre ++ [(k, v')])%list.
Proof.
  induction pre as [|[k0 v0] pre IH]; simpl; intros H.
  - now rewrite String.eqb_refl.
  - destruct (String.eqb_spec k0 k) as [->|]; [tauto|].
    f_equal. apply IH. tauto.
Qed.

Lemma email_loop (l : list ET.Element) (pre : PyDict.dict) (v : string) :
  ~ In "Corresponding Author Email" (PyDict.keys pre) ->
  fold_left set_email l (pre ++ [("Corresponding Author Email", v)])%list
  = (pre ++ [("Corresponding Author Email", email_after l v)])%list.
Proof.
  intros H. revert v; induction l as [|a l IH]; intros v; simpl; trivial.
  unfold set_email at 2.
  destruct (Re.search Re.email_pattern (author_affiliation a)); [|apply IH].
  now rewrite set_last, IH.
Qed.

(** The entries that [filter_non_academic_authors] builds from the
    names and affiliations of [l] are those of the flagged authors. *)
Lemma filter_non_academic_authors_map (l : list ET.Element) :
  filter_non_academic_authors (map author_name l) (map author_affiliation l)
  = map (fun a => {| name := author_name a; company := author_affiliation a |})
        (filter (fun a => any_keyword (author_affiliation a)) l).
Proof.
  rewrite filter_non_academic_authors_eq.
  induction l as [|a l IH]; simpl; [reflexivity|].
  destruct (any_keyword (author_affiliation a)); simpl; now rewrite IH.
Qed.

(** The row of a record, field by field. *)
Lemma paper_of_article_fields (article : ET.Element) :
  paper_of_article article =
  [("PubmedID", PyStr.or_ (ET.findtext article path_PMID) "Unknown");
   ("Title", PyStr.or_ (ET.findtext article path_ArticleTitle) "Unknown");
   ("Publication Date",
     if PyStr.truthy (pub_day article) && PyStr.truthy (pub_month article)
        && PyStr.truthy (pub_year article)
     then pub_year article ++ "/" ++ pub_month article ++ "/" ++ pub_day article
     else if PyStr.truthy (pub_year article) then pub_year article else "");
   ("Non-academic Author(s)",
     match flagged_authors article with
     | [] => "None"
     | _ :: _ => PyStr.join "; " (map author_name (flagged_authors article))
     end);
   ("Company Affiliation(s)",
     match flagged_authors article with
     | [] => "None"
     | _ :: _ => PyStr.join "; " (map author_affiliation (flagged_authors article))
     end);
   ("Corresponding Author Email", email_after (authors_of article) "None")].
Proof.
  unfold paper_of_article.
  fold (pub_day article) (pub_month article) (pub_year article).
  fold (authors_of article).
  set (id_ := PyStr.or_ (ET.findtext article path_PMID) "Unknown").
  set (title := PyStr.or_ (ET.findtext article path_ArticleTitle) "Unknown").
  set (date := if PyStr.truthy (pub_day article) && PyStr.truthy (pub_month article)
                  && PyStr.truthy (pub_year article)
               then pub_year article ++ "/" ++ pub_month article ++ "/"
                    ++ pub_day article
               else if PyStr.truthy (pub_year article) then pub_year article
                    else "").
  set (pre := [("PubmedID", id_); ("Title", title); ("Publication Date", date);
               ("Non-academic Author(s)", "None");
               ("Company Affiliation(s)", "None")]).
  assert (Hdate :
    (if PyStr.truthy (pub_day article) && PyStr.truthy (pub_month article)
        && PyStr.truthy (pub_year article)
     then PyDict.set
            [("PubmedID", id_); ("Title", title); ("Publication Date", "");
             ("Non-academic Author(s)", "None"); ("Company Affiliation(s)", "None");
             ("Corresponding Author Email", "None")]
            "Publication Date"
            (pub_year article ++ "/" ++ pub_month article ++ "/" ++ pub_day article)
     else if PyStr.truthy (pub_year article)
          then PyDict.set
                 [("PubmedID", id_); ("Title", title); ("Publication Date", "");
                  ("Non-academic Author(s)", "None");
                  ("Company Affiliation(s)", "None");
                  ("Corresponding Author Email", "None")]
                 "Publication Date" (pub_year article)
          else [("PubmedID", id_); ("Title", title); ("Publication Date", "");
                ("Non-academic Author(s)", "None");
                ("Company Affiliation(s)", "None");
                ("Corresponding Author Email", "None")])
    = (pre ++ [("Corresponding Author Email", "None")])%list).
  { subst pre date.
    destruct (PyStr.truthy (pub_day article) && PyStr.truthy (pub_month article)
              && PyStr.truthy (pub_year article));
      [reflexivity|].
    now destruct (PyStr.truthy (pub_year article)). }
  rewrite Hdate, author_loop, email_loop.
  2:{ subst pre. simpl. intros [H|[H|[H|[H|[H|[]]]]]]; discriminate. }
  rewrite !app_nil_l, filter_non_academic_authors_map.
  fold (flagged_authors article).
  destruct (flagged_authors article) as [|a fl] eqn:E; [reflexivity|].
  rewrite !map_map. reflexivity.
Qed.

End RecordFacts.

(* ================================================================= *)
(** * Properties of one row *)

(** C1, as the specification words it, fails: a record with a year and a
    month but no day gets the year as its date, not the empty string. *)
Lemma C1_year_month_without_day :
  pub_year sample_article = "2020"
  /\ pub_month sample_article = "Jan"
  /\ ET.findtext sample_article path_PubDate_Day = None
  /\ PyDict.get (paper_of_article sample_article) "Publication Date" = Some "2020"
  /\ PyDict.get (paper_of_article sample_article) "Publication Date" <> Some "".
Proof. repeat split; try reflexivity. discriminate. Qed.

(** C1, amended: the date field is [YEAR/MONTH/DAY] when year, month and
    day are all present and non-empty; otherwise it is the year alone
    whenever the year is present and non-empty, whatever the month and the
    day are; otherwise it is the empty string. *)
Theorem C1_publication_date (article : ET.Element) :
  let y := pub_year article in
  let m := pub_month article in
  let d := pub_day article in
  let field := PyDict.get (paper_of_article article) "Publication Date" in
  (y <> "" -> m <> "" -> d <> "" -> field = Some (y ++ "/" ++ m ++ "/" ++ d))
  /\ (y <> "" -> m = "" \/ d = "" -> field = Some y)
  /\ (y = "" -> field = Some "").
Proof.
  intros y m d field. subst field. rewrite paper_of_article_fields.
  fold y m d. cbn [PyDict.get]. simpl String.eqb. cbv iota.
  repeat split.
  - intros Hy Hm Hd. destruct y, m, d; try congruence. reflexivity.
  - intros Hy [->| ->]; destruct y; try congruence;
      simpl; rewrite ?andb_false_r; reflexivity.
  - intros ->. now rewrite andb_false_r.
Qed.

(** The record dated 2020, Jan: the year alone. *)
Lemma C1_publication_date_witness :
  PyDict.get (paper_of_article sample_article) "Publication Date" = Some "2020".
Proof.
  refine (proj1 (proj2 (C1_publication_date sample_article)) _ _).
  - discriminate.
  - right. reflexivity.
Defined.

(** C2: an author is flagged exactly when the affiliation holds one of the
    thirteen keywords as a substring, compared character by character and
    anywhere in the text ("Labyrinth" holds "Lab"); the entry of a flagged
    author carries the affiliation of that author, unchanged. *)
Theorem C2_non_academic_by_keyword_substring
        (authors affiliations : list string) (i : nat) (n a : string) :
  nth_error authors i = Some n ->
  nth_error affiliations i = Some a ->
  (In {| name := n; company := a |} (filter_non_academic_authors authors affiliations)
   <-> exists kw,
         In kw ["Inc"; "Ltd"; "Corp"; "Corporation"; "Pharma"; "Biotech";
                "Biopharma"; "HealthTech"; "Lab"; "Research Institute";
                "Company"; "Therapeutics"; "Healthcare"]
         /\ PyStr.Substring kw a)
  /\ (forall e, In e (filter_non_academic_authors authors affiliations) ->
        exists j, nth_error authors j = Some (name e)
                  /\ nth_error affiliations j = Some (company e))
  /\ filter_non_academic_authors ["Minos, K."] ["Labyrinth"]
     = [{| name := "Minos, K."; company := "Labyrinth" |}]
  /\ filter_non_academic_authors ["Doe, Jane"] ["acme pharma inc, boston"] = [].
Proof.
  intros Hn Ha. rewrite filter_non_academic_authors_eq.
  repeat split.
  - intros H. apply in_map_iff in H as ([n' a'] & [= -> ->] & H).
    apply filter_In in H as [_ H]. now apply any_keyword_iff in H.
  - intros H. apply in_map_iff. exists (n, a). split; trivial.
    apply filter_In. split.
    + now apply combine_nth_error with (i := i).
    + now apply any_keyword_iff.
  - intros e H. apply in_map_iff in H as ([n' a'] & <- & H).
    apply filter_In in H as [H _]. now apply in_combine_nth_error.
Qed.

(** One author at "Acme Pharma Inc, Boston". *)
Lemma C2_non_academic_by_keyword_substring_witness :
  In {| name := "Doe, Jane"; company := "Acme Pharma Inc, Boston" |}
     (filter_non_academic_authors ["Doe, Jane"] ["Acme Pharma Inc, Boston"])
  <-> exists kw,
        In kw ["Inc"; "Ltd"; "Corp"; "Corporation"; "Pharma"; "Biotech";
               "Biopharma"; "HealthTech"; "Lab"; "Research Institute";
               "Company"; "Therapeutics"; "Healthcare"]
        /\ PyStr.Substring kw "Acme Pharma Inc, Boston".
Proof.
  exact (proj1 (@C2_non_academic_by_keyword_substring
                  ["Doe, Jane"] ["Acme Pharma Inc, Boston"] 0
                  "Doe, Jane" "Acme Pharma Inc, Boston" eq_refl eq_refl)).
Defined.

Section EmailFacts.

Let found (a : ET.Element) : option string :=
  Re.search Re.email_pattern (author_affiliation a).

Lemma email_after_none (l : list ET.Element) (v : string) :
  (forall b, In b l -> found b = None) -> email_after l v = v.
Proof.
  unfold email_after, found.
  revert v; induction l as [|a l IH]; intros v H; simpl; trivial.
  rewrite (H a (or_introl eq_refl)). apply IH.
  intros b Hb. apply H. now right.
Qed.


End EmailFacts.



(** [sep.join] of a list that is not empty writes the items with [sep]
    between neighbours. *)
Lemma join_separated (sep x : string) (l : list string) :
  PyStr.join sep (x :: l) = separated sep x l.
Proof.
  unfold PyStr.join. revert x. induction l as [|y l IH]; intros x.
  - reflexivity.
  - change (x ++ sep ++ String.concat sep (y :: l) = x ++ sep ++ separated sep y l).
    now rewrite IH.
Qed.

(** C9: the two author fields of a row are rendered from one list, the
    flagged authors of the record in document order: the names in one
    field and the affiliations of the same authors in the other, each
    written with "; " between neighbours; both fields are "None" when no
    author is flagged.  For the sample record, where the first and the
    third author are flagged, the fields are "Doe, Jane; Poe, Ed" and the
    two affiliations with "; " between them. *)
Theorem C9_parallel_author_fields (article : ET.Element) :
  let row := paper_of_article article in
  let flagged := flagged_authors article in
  let entries :=
    filter_non_academic_authors (map author_name (authors_of article))
                                (map author_affiliation (authors_of article)) in
  map name entries = map author_name flagged
  /\ map company entries = map author_affiliation flagged
  /\ List.length (map name entries) = List.length (map company entries)
  /\ (forall i n c,
        nth_error (map name entries) i = Some n ->
        nth_error (map company entries) i = Some c ->
        exists a, nth_error flagged i = Some a
                  /\ n = author_name a /\ c = author_affiliation a)
  /\ PyDict.get row "Non-academic Author(s)"
     = Some (match flagged with
             | [] => "None"
             | a :: more => separated "; " (author_name a) (map author_name more)
             end)
  /\ PyDict.get row "Company Affiliation(s)"
     = Some (match flagged with
             | [] => "None"
             | a :: more =>
                 separated "; " (author_affiliation a) (map author_affiliation more)
             end)
  /\ PyDict.get (paper_of_article sample_article) "Non-academic Author(s)"
     = Some "Doe, Jane; Poe, Ed"
  /\ PyDict.get (paper_of_article sample_article) "Company Affiliation(s)"
     = Some "BioLab Corp, contact: jane.doe@acme.com; Acme Pharma Inc, Boston. ed@acme.com".
Proof.
  intros row flagged entries.
  assert (Hn : map name entries = map author_name flagged).
  { subst entries. rewrite filter_non_academic_authors_map, map_map. reflexivity. }
  assert (Hc : map company entries = map author_affiliation flagged).
  { subst entries. rewrite filter_non_academic_authors_map, map_map. reflexivity. }
  rewrite Hn, Hc. repeat split.
  - now rewrite !length_map.
  - intros i n c Hi Hi'. rewrite nth_error_map in Hi, Hi'.
    destruct (nth_error flagged i) as [a|]; [|discriminate].
    exists a. simpl in Hi, Hi'. repeat split; congruence.
  - subst row. rewrite paper_of_article_fields. cbn [PyDict.get].
    simpl String.eqb. cbv iota. f_equal.
    destruct (flagged_authors article) as [|a more]; trivial.
    apply join_separated.
  - subst row. rewrite paper_of_article_fields. cbn [PyDict.get].
    simpl String.eqb. cbv iota. f_equal.
    destruct (flagged_authors article) as [|a more]; trivial.
    apply join_separated.
Qed.

(* ================================================================= *)
(** * One attempt of a retry loop *)

Section AttemptFacts.

Lemma nth_outcome_0 (w : World) (rq : Request) :
  nth_outcome w 0 rq = net w (List.length (calls w)) rq.
Proof. unfold nth_outcome. now rewrite Nat.add_0_r. Qed.

(** After a call, and whatever is printed, the next attempt is one
    further in the sequence of outcomes. *)
Lemma nth_outcome_retry (w : World) (rq rq' : Request) (args : list PyVal) (k : nat) :
  nth_outcome (log_print args (log_call rq w)) k rq' = nth_outcome w (S k) rq'.
Proof.
  unfold nth_outcome, log_print, log_call. simpl.
  rewrite length_app. simpl. f_equal. lia.
Qed.

Lemma failures_head (w : World) (rq : Request) (msg : string) (msgs : list string) :
  failures w rq (msg :: msgs) -> transport_failure (nth_outcome w 0 rq) = Some msg.
Proof. intros H. now apply (H 0). Qed.

Lemma failures_tail (w : World) (rq : Request) (args : list PyVal)
      (msg : string) (msgs : list string) :
  failures w rq (msg :: msgs) -> failures (log_print args (log_call rq w)) rq msgs.
Proof.
  intros H i m Hi. rewrite nth_outcome_retry. now apply (H (S i)).
Qed.

(** [raise_for_status] raises exactly for the responses that count as a
    transport failure, with the message of the [HTTPError]. *)
Lemma raise_for_status_spec (r : Response) (w : World) :
  Requests.raise_for_status r w =
  match transport_failure (inr r) with
  | Some msg => (Err (RequestException msg), w)
  | None => (Ok tt, w)
  end.
Proof.
  unfold Requests.raise_for_status, transport_failure, http_error_msg.
  destruct (400 <=? status_code r)%Z eqn:H4; simpl.
  - destruct (status_code r <? 500)%Z eqn:H5; simpl.
    + assert ((status_code r <? 600)%Z = true) as -> by lia. reflexivity.
    + destruct (500 <=? status_code r)%Z eqn:H5'; [|lia]. simpl.
      now destruct (status_code r <? 600)%Z.
  - destruct (500 <=? status_code r)%Z eqn:H5; [lia|]. reflexivity.
Qed.

Variable A : Type.
Variable u : string.
Variable params : list (string * string).
Variable k : Response -> M A.

Let rq := {| req_url := u; req_params := params |}.

(** [requests.get] followed by [raise_for_status], then [k]. *)
Let request : M A :=
  response <- Requests.get u params ;;
  Requests.raise_for_status response ;;
  k response.

Lemma request_fails (w : World) (msg : string) :
  transport_failure (nth_outcome w 0 rq) = Some msg ->
  request w = (Err (RequestException msg), log_call rq w).
Proof.
  rewrite nth_outcome_0. unfold request, bind, Requests.get. fold rq.
  destruct (net w (List.length (calls w)) rq) as [m|r] eqn:E.
  - simpl. now intros [= ->].
  - intros H. rewrite raise_for_status_spec, H. reflexivity.
Qed.

Lemma request_passes (w : World) (r : Response) :
  nth_outcome w 0 rq = inr r ->
  transport_failure (inr r) = None ->
  request w = k r (log_call rq w).
Proof.
  rewrite nth_outcome_0. unfold request, bind, Requests.get. fold rq.
  intros -> H. now rewrite raise_for_status_spec, H.
Qed.

End AttemptFacts.

(* ================================================================= *)
(** * The loop of [fetch_pubmed_ids] *)

Section LookupFacts.

Variable query : string.
Variable debug : bool.

Let rq := search_request query.
Let loop := fetch_pubmed_ids_attempts query debug (req_params rq).

Lemma lookup_turn_fails (attempt : nat) (rest : list nat) (w : World) (msg : string) :
  transport_failure (nth_outcome w 0 rq) = Some msg ->
  loop (attempt :: rest) w =
  if (attempt <? 2)%nat
  then loop rest (log_print [VStr ("Retrying due to error: " ++ msg)] (log_call rq w))
  else (Err (RuntimeError ("Failed to fetch PubMed IDs after 3 attempts: " ++ msg)),
        log_call rq w).
Proof.
  intros H. unfold loop. cbn [fetch_pubmed_ids_attempts].
  unfold bind at 1. unfold try_except.
  rewrite (@request_fails _ PUBMED_BASE_URL (req_params rq) _ w msg H).
  now destruct (attempt <? 2)%nat.
Qed.

(** One case of the check: the outcome is read off the computation; a
    claim about another shape of [data] contradicts the case at hand. *)
Ltac envelope_case :=
  eexists; split; [intros ?; reflexivity|];
  split; [exact I|];
  split;
  [ let ms := fresh "ms" in
    let Heq := fresh "Heq" in
    let H := fresh "H" in
    let H' := fresh "H'" in
    let r := fresh "r" in
    intros (ms & Heq & H);
    first [ reflexivity
          | discriminate Heq
          | injection Heq as <-; destruct H as [H|(r & H & H')]; congruence ]
  | let Heq := fresh "Heq" in
    intros ? ? ? Heq ? ?;
    first [ discriminate Heq | injection Heq as <-; congruence ] ].

(** The check of the envelope changes nothing in the world, and ends the
    loop: it returns the identifier list or raises an exception that is
    not a [RequestException]. *)
Lemma idlist_of_outcome (data : JSON) :
  exists res,
    (forall w, idlist_of data w = (res, w))
    /\ final res
    /\ (lacks_idlist data ->
        res = Err (ValueError "Invalid response structure from PubMed API."))
    /\ (forall members result idlist,
          data = JObject members ->
          PyJson.lookup members "esearchresult" = Some (JObject result) ->
          PyJson.lookup result "idlist" = Some idlist ->
          res = Ok (Some idlist)).
Proof.
  unfold idlist_of, lacks_idlist.
  destruct data as [| b | n | s | items | members]; unfold bind; simpl.
  1-3: envelope_case.
  - destruct (PyStr.str_in "esearchresult" s); envelope_case.
  - destruct (existsb _ items); envelope_case.
  - destruct (PyJson.lookup members "esearchresult") as [result|] eqn:E;
      simpl; [|envelope_case].
    destruct result as [| b | n | s | items | result]; simpl.
    1-3: envelope_case.
    + destruct (PyStr.str_in "idlist" s); envelope_case.
    + destruct (existsb _ items); envelope_case.
    + destruct (PyJson.lookup result "idlist") as [ids|] eqn:E'; envelope_case.
Qed.

(** On a body, or an ["esearchresult"], that is null, a boolean or a
    number, the membership test raises [TypeError]. *)
Lemma idlist_of_scalars (data : JSON) (w : World) :
  (not_a_container data = true
   \/ exists members v,
        data = JObject members
        /\ PyJson.lookup members "esearchresult" = Some v
        /\ not_a_container v = true) ->
  idlist_of data w = (Err TypeError, w).
Proof.
  intros [Hd|(members & v & -> & Hv & Hd)].
  - destruct data; try discriminate; reflexivity.
  - unfold idlist_of, bind. simpl. rewrite Hv. simpl.
    destruct v; try discriminate; reflexivity.
Qed.

Lemma lookup_turn_passes (attempt : nat) (rest : list nat) (w : World)
      (r : Response) (data : JSON) :
  nth_outcome w 0 rq = inr r ->
  transport_failure (inr r) = None ->
  json r = inr data ->
  exists res w',
    loop (attempt :: rest) w = (res, w')
    /\ calls w' = (calls w ++ [rq])%list
    /\ final res
    /\ (forall w0, idlist_of data w0 = (res, w0)).
Proof.
  intros Hr Hpass Hjson.
  destruct (idlist_of_outcome data) as (res & Hres & Hfinal & _).
  unfold loop. cbn [fetch_pubmed_ids_attempts].
  unfold bind at 1. unfold try_except.
  rewrite (@request_passes _ PUBMED_BASE_URL (req_params rq) _ w r Hr Hpass).
  change {| req_url := PUBMED_BASE_URL; req_params := req_params rq |} with rq.
  unfold bind at 1.
  set (w1 := log_call rq w).
  assert (Hdbg : exists w2,
             when debug
               (print [VStr "Fetching PubMed IDs with query:"; VStr query] ;;
                print [VStr "Response:"; VStr (text r)]) w1 = (Ok tt, w2)
             /\ calls w2 = calls w1).
  { destruct debug; simpl; eexists; split; reflexivity. }
  destruct Hdbg as (w2 & -> & Hc).
  assert (Hc' : calls w2 = (calls w ++ [rq])%list) by now rewrite Hc.
  unfold bind at 1, response_json. rewrite Hjson. unfold ret at 1.
  rewrite Hres.
  destruct res as [[v|]|e]; simpl in Hfinal; try contradiction.
  - exists (Ok (Some v)), w2. repeat split; trivial.
  - destruct e; try contradiction;
      (eexists; exists w2; repeat split; trivial).
Qed.

End LookupFacts.

(* ================================================================= *)
(** * [parse_paper_details] and the loop of [fetch_paper_details] *)

Section FetchFacts.

Variable fromstring : string -> string + ET.Element.
Variable debug : bool.

(** The rows are those of the record elements below the root, in document
    order; nothing but the console changes. *)
Lemma parse_paper_details_outcome (xml_data : string) (w : World) :
  exists w',
    parse_paper_details fromstring xml_data debug w
    = (match fromstring xml_data with
       | inl e => Err (ValueError ("Failed to parse XML data: " ++ e))
       | inr root => Ok (map paper_of_article (records_below root))
       end, w')
    /\ calls w' = calls w
    /\ files w' = files w.
Proof.
  unfold parse_paper_details.
  destruct (fromstring xml_data) as [e|root].
  - exists w. now repeat split.
  - unfold path_PubmedArticle. rewrite findall_descendants.
    rewrite (fold_left_append paper_of_article). simpl app.
    fold is_record. fold (records_below root).
    destruct debug; simpl; eexists; repeat split; reflexivity.
Qed.

Variable pubmed_ids : list string.

Let rq := fetch_request pubmed_ids.
Let loop := fetch_paper_details_attempts fromstring pubmed_ids debug (req_params rq).

Lemma fetch_turn_fails (attempt : nat) (rest : list nat) (w : World) (msg : string) :
  transport_failure (nth_outcome w 0 rq) = Some msg ->
  loop (attempt :: rest) w =
  if (attempt <? 2)%nat
  then loop rest (log_print [VStr ("Retrying due to error: " ++ msg)] (log_call rq w))
  else (Err (RuntimeError ("Failed to fetch paper details after 3 attempts: " ++ msg)),
        log_call rq w).
Proof.
  intros H. unfold loop. cbn [fetch_paper_details_attempts].
  unfold bind at 1. unfold try_except.
  rewrite (@request_fails _ PUBMED_FETCH_URL (req_params rq) _ w msg H).
  now destruct (attempt <? 2)%nat.
Qed.

Lemma fetch_turn_passes (attempt : nat) (rest : list nat) (w : World) (r : Response) :
  nth_outcome w 0 rq = inr r ->
  transport_failure (inr r) = None ->
  exists w',
    loop (attempt :: rest) w
    = (match fromstring (text r) with
       | inl e => Err (ValueError ("Failed to parse XML data: " ++ e))
       | inr root => Ok (Some (map paper_of_article (records_below root)))
       end, w')
    /\ calls w' = (calls w ++ [rq])%list.
Proof.
  intros Hr Hpass.
  unfold loop. cbn [fetch_paper_details_attempts].
  unfold bind at 1. unfold try_except.
  rewrite (@request_passes _ PUBMED_FETCH_URL (req_params rq) _ w r Hr Hpass).
  change {| req_url := PUBMED_FETCH_URL; req_params := req_params rq |} with rq.
  unfold bind at 1.
  set (w1 := log_call rq w).
  assert (Hdbg : exists w2,
             when debug
               (print [VStr "Fetching details for PubMed IDs:"; VStrList pubmed_ids] ;;
                print [VStr "Response:"; VStr (text r)]) w1 = (Ok tt, w2)
             /\ calls w2 = calls w1).
  { destruct debug; simpl; eexists; split; reflexivity. }
  destruct Hdbg as (w2 & -> & Hc).
  unfold bind at 1.
  destruct (parse_paper_details_outcome (text r) w2) as (w3 & -> & Hc3 & _).
  exists w3. split.
  - now destruct (fromstring (text r)).
  - now rewrite Hc3, Hc.
Qed.

End FetchFacts.

(* ================================================================= *)
(** * Retrying: what both loops share *)

Section RetryFacts.

Variable A : Type.
Variable loop : list nat -> M (option A).
Variable rq : Request.
Variable exhausted : string.

Hypothesis turn_fails :
  forall (attempt : nat) (rest : list nat) (w : World) (msg : string),
    transport_failure (nth_outcome w 0 rq) = Some msg ->
    loop (attempt :: rest) w =
    if (attempt <? 2)%nat
    then loop rest (log_print [VStr ("Retrying due to error: " ++ msg)] (log_call rq w))
    else (Err (RuntimeError (exhausted ++ msg)), log_call rq w).

(** After failed attempts that leave the budget unspent, the loop stands
    at the next attempt, one call later for each failure. *)
Lemma loop_after_failures (msgs : list string) (a n : nat) (w : World) :
  failures w rq msgs ->
  a + List.length msgs <= 2 ->
  exists w',
    loop (seq a (List.length msgs + n)) w = loop (seq (a + List.length msgs) n) w'
    /\ calls w' = (calls w ++ repeat rq (List.length msgs))%list
    /\ (forall j rq', nth_outcome w' j rq' = nth_outcome w (List.length msgs + j) rq').
Proof.
  revert a w. induction msgs as [|msg msgs IH]; intros a w Hf Ha.
  - exists w. simpl. rewrite Nat.add_0_r, app_nil_r. now repeat split.
  - simpl in Ha. simpl List.length. cbn [Nat.add seq].
    rewrite (turn_fails _ _ _ (failures_head Hf)).
    assert ((a <? 2)%nat = true) as -> by (apply Nat.ltb_lt; lia).
    set (w1 := log_print _ (log_call rq w)).
    destruct (IH (S a) w1) as (w' & Hloop & Hcalls & Hnet).
    + now apply failures_tail with (msg := msg).
    + lia.
    + exists w'. split; [|split].
      * rewrite Hloop. f_equal. f_equal. lia.
      * rewrite Hcalls. subst w1. simpl. now rewrite <- app_assoc.
      * intros j rq'. rewrite Hnet. subst w1. now rewrite nth_outcome_retry.
Qed.

(** Three failures in a row: the third one is reported, after three
    calls. *)
Lemma loop_exhausted (e0 e1 e2 : string) (w : World) :
  failures w rq [e0; e1; e2] ->
  exists w',
    loop (seq 0 3) w = (Err (RuntimeError (exhausted ++ e2)), w')
    /\ calls w' = (calls w ++ [rq; rq; rq])%list.
Proof.
  intros Hf.
  destruct (@loop_after_failures [e0; e1] 0 1 w) as (w' & Hloop & Hcalls & Hnet).
  - intros i msg Hi. apply Hf. destruct i as [|[|i]]; simpl in *; trivial.
    now destruct i.
  - simpl. lia.
  - change (loop [0; 1; 2] w = loop [2] w') in Hloop.
    change (seq 0 3) with [0; 1; 2]. rewrite Hloop.
    rewrite (turn_fails 2 [] w' (msg := e2)).
    + simpl. eexists. split; [reflexivity|].
      simpl. rewrite Hcalls. simpl. now rewrite <- app_assoc.
    + rewrite Hnet. now apply (Hf 2).
Qed.

End RetryFacts.

(* ================================================================= *)
(** * Properties of the extraction *)

(** C4, as the specification words it, fails: a document whose root is
    itself a record element holds one record element, and no row is
    extracted from it. *)
Lemma C4_root_record_yields_no_row :
  sample_fromstring "<PubmedArticle><PMID>1</PMID></PubmedArticle>" = inr root_record
  /\ ET.count_tag "PubmedArticle" root_record = 1
  /\ fst (parse_paper_details sample_fromstring
            "<PubmedArticle><PMID>1</PMID></PubmedArticle>" false world_up)
     = Ok []
  /\ List.length (@nil PyDict.dict) <> ET.count_tag "PubmedArticle" root_record.
Proof. repeat split; try reflexivity. discriminate. Qed.

(** C4, amended: for a well-formed document with N record elements
    strictly below its root (the root itself is never taken as a record),
    the extraction returns N rows, the i-th row being that of the i-th
    such element in document order. *)
Theorem C4_one_row_per_record_below_root
        (fromstring : string -> string + ET.Element)
        (xml_data : string) (debug : bool) (w : World) (root : ET.Element) :
  fromstring xml_data = inr root ->
  exists rows w',
    parse_paper_details fromstring xml_data debug w = (Ok rows, w')
    /\ rows = map paper_of_article (filter is_record (ET.below root))
    /\ List.length rows
       = list_sum (map (ET.count_tag "PubmedArticle") (ET.children root))
    /\ (forall i, nth_error rows i
                  = option_map paper_of_article
                      (nth_error (filter is_record (ET.below root)) i)).
Proof.
  intros Hroot.
  destruct (parse_paper_details_outcome fromstring debug xml_data w)
    as (w' & H & _).
  rewrite Hroot in H.
  exists (map paper_of_article (records_below root)), w'.
  split; [exact H|]. split; [reflexivity|]. split.
  - rewrite length_map. apply count_tag_below.
  - intros i. apply nth_error_map.
Qed.

(** The document with one record below its root. *)
Lemma C4_one_row_per_record_below_root_witness :
  exists rows w',
    parse_paper_details sample_fromstring
      "<PubmedArticleSet><PubmedArticle><PMID>1</PMID></PubmedArticle></PubmedArticleSet>"
      true world_up = (Ok rows, w')
    /\ rows = map paper_of_article (filter is_record (ET.below one_record_document))
    /\ List.length rows
       = list_sum (map (ET.count_tag "PubmedArticle")
                       (ET.children one_record_document))
    /\ (forall i, nth_error rows i
                  = option_map paper_of_article
                      (nth_error (filter is_record (ET.below one_record_document)) i)).
Proof.
  exact (@C4_one_row_per_record_below_root sample_fromstring
           "<PubmedArticleSet><PubmedArticle><PMID>1</PMID></PubmedArticle></PubmedArticleSet>"
           true world_up one_record_document eq_refl).
Defined.

(** C5: the extraction fails exactly when the input does not parse, and
    then with the [ValueError] that wraps the parse error; a document that
    parses and holds no record element gives the empty list of rows. *)
Theorem C5_error_iff_not_parseable
        (fromstring : string -> string + ET.Element)
        (xml_data : string) (debug : bool) (w : World) :
  (forall e,
     fst (parse_paper_details fromstring xml_data debug w) = Err e
     <-> exists msg, fromstring xml_data = inl msg
                     /\ e = ValueError ("Failed to parse XML data: " ++ msg))
  /\ (forall root,
        fromstring xml_data = inr root ->
        ET.count_tag "PubmedArticle" root = 0 ->
        fst (parse_paper_details fromstring xml_data debug w) = Ok []).
Proof.
  destruct (parse_paper_details_outcome fromstring debug xml_data w)
    as (w' & H & _).
  rewrite H. simpl. split.
  - intros e. destruct (fromstring xml_data) as [msg|root]; split.
    + intros [= <-]. now exists msg.
    + now intros (msg' & [= <-] & ->).
    + discriminate.
    + intros (msg & [=] & _).
  - intros root -> Hcount. f_equal.
    assert (Hlen : List.length (records_below root) = 0).
    { unfold records_below, is_record. rewrite count_tag_below.
      destruct root as [t x cs]. simpl in *. lia. }
    now destruct (records_below root).
Qed.

(** The document without records. *)
Lemma C5_error_iff_not_parseable_witness :
  fst (parse_paper_details sample_fromstring "<PubmedArticleSet></PubmedArticleSet>"
         false world_up) = Ok [].
Proof.
  exact (proj2 (C5_error_iff_not_parseable sample_fromstring
                  "<PubmedArticleSet></PubmedArticleSet>" false world_up)
               empty_document eq_refl eq_refl).
Defined.

(* ================================================================= *)
(** * Properties of the two network functions *)

Section RunFacts.

Variable fromstring : string -> string + ET.Element.
Variable debug : bool.

Lemma fetch_pubmed_ids_unfold (query : string) (w : World) :
  PyStr.all_space query = false ->
  fetch_pubmed_ids query debug w
  = fetch_pubmed_ids_attempts query debug (req_params (search_request query))
      (seq 0 3) w.
Proof.
  intros H. unfold fetch_pubmed_ids. now rewrite strip_falsy, H.
Qed.

Lemma fetch_paper_details_unfold (pubmed_ids : list string) (w : World) :
  pubmed_ids <> [] ->
  fetch_paper_details fromstring pubmed_ids debug w
  = fetch_paper_details_attempts fromstring pubmed_ids debug
      (req_params (fetch_request pubmed_ids)) (seq 0 3) w.
Proof.
  intros H. unfold fetch_paper_details. now destruct pubmed_ids.
Qed.

(** The search after failures within the budget and a response that
    passes [raise_for_status] and decodes: the loop ends at that response,
    one call after the failed ones. *)
Lemma lookup_run (query : string) (w : World) (msgs : list string)
      (r : Response) (data : JSON) :
  PyStr.all_space query = false ->
  List.length msgs <= 2 ->
  failures w (search_request query) msgs ->
  nth_outcome w (List.length msgs) (search_request query) = inr r ->
  transport_failure (inr r) = None ->
  json r = inr data ->
  exists res w',
    fetch_pubmed_ids query debug w = (res, w')
    /\ calls w' = (calls w ++ repeat (search_request query) (S (List.length msgs)))%list
    /\ final res
    /\ (forall w0, idlist_of data w0 = (res, w0)).
Proof.
  intros Hq Hlen Hf Hr Hpass Hjson.
  rewrite fetch_pubmed_ids_unfold by trivial.
  destruct (@loop_after_failures _ _ _ _ (lookup_turn_fails query debug)
              msgs 0 (3 - List.length msgs) w Hf)
    as (w1 & Hloop & Hcalls & Hnet); [simpl; lia|].
  replace (List.length msgs + (3 - List.length msgs)) with 3 in Hloop by lia.
  rewrite Hloop.
  destruct (3 - List.length msgs) as [|n] eqn:E; [lia|]. cbn [seq].
  destruct (@lookup_turn_passes query debug (0 + List.length msgs) (seq (S (0 + List.length msgs)) n) w1 r data)
    as (res & w' & Hrun & Hcalls' & Hfinal & Hres); trivial.
  { rewrite Hnet. now rewrite Nat.add_0_r. }
  exists res, w'. repeat split; trivial.
  rewrite Hcalls', Hcalls, <- app_assoc. f_equal.
  symmetry. apply repeat_cons.
Qed.

Lemma fetch_run (pubmed_ids : list string) (w : World) (msgs : list string)
      (r : Response) :
  pubmed_ids <> [] ->
  List.length msgs <= 2 ->
  failures w (fetch_request pubmed_ids) msgs ->
  nth_outcome w (List.length msgs) (fetch_request pubmed_ids) = inr r ->
  transport_failure (inr r) = None ->
  exists w',
    fetch_paper_details fromstring pubmed_ids debug w
    = (match fromstring (text r) with
       | inl e => Err (ValueError ("Failed to parse XML data: " ++ e))
       | inr root => Ok (Some (map paper_of_article (records_below root)))
       end, w')
    /\ calls w' = (calls w ++ repeat (fetch_request pubmed_ids)
                                     (S (List.length msgs)))%list.
Proof.
  intros Hids Hlen Hf Hr Hpass.
  rewrite fetch_paper_details_unfold by trivial.
  destruct (@loop_after_failures _ _ _ _
              (fetch_turn_fails fromstring debug pubmed_ids)
              msgs 0 (3 - List.length msgs) w Hf)
    as (w1 & Hloop & Hcalls & Hnet); [simpl; lia|].
  replace (List.length msgs + (3 - List.length msgs)) with 3 in Hloop by lia.
  rewrite Hloop.
  destruct (3 - List.length msgs) as [|n] eqn:E; [lia|]. cbn [seq].
  destruct (@fetch_turn_passes fromstring debug pubmed_ids
              (0 + List.length msgs) (seq (S (0 + List.length msgs)) n) w1 r)
    as (w' & Hrun & Hcalls'); trivial.
  { rewrite Hnet. now rewrite Nat.add_0_r. }
  exists w'. split; trivial.
  rewrite Hcalls', Hcalls, <- app_assoc. f_equal.
  symmetry. apply repeat_cons.
Qed.

End RunFacts.

(** C6, as the specification words it, fails twice.  A status outside 2xx
    is not always retried: the search that is answered 300 returns the
    identifier list of the body after one call.  And a success response
    without the identifier list does not always raise the [ValueError]:
    when its ["esearchresult"] is null the search raises [TypeError]. *)
Lemma C6_status_300_and_null_result :
  (nth_outcome world_multiple_choices 0 (search_request "cancer")
   = inr (sample_response 300 "Multiple Choices" "{}"
            (inr (JObject [("esearchresult",
                            JObject [("idlist", JArray [JString "1"])])])))
   /\ fst (fetch_pubmed_ids "cancer" false world_multiple_choices)
      = Ok (Some (JArray [JString "1"]))
   /\ calls (snd (fetch_pubmed_ids "cancer" false world_multiple_choices))
      = [search_request "cancer"])
  /\ (nth_outcome world_null_result 0 (search_request "cancer")
      = inr (sample_response 200 "OK" "{}" (inr (JObject [("esearchresult", JNull)])))
      /\ fst (fetch_pubmed_ids "cancer" false world_null_result) = Err TypeError
      /\ fst (fetch_pubmed_ids "cancer" false world_null_result)
         <> Err (ValueError "Invalid response structure from PubMed API.")).
Proof. repeat split. discriminate. Qed.

(** C6, amended: in both functions an attempt fails in transport when
    [requests.get] raises or the status is 4xx or 5xx (other statuses
    outside 2xx pass).  Such a failure is retried up to two more times;
    after three failures the function raises [RuntimeError] with the
    message of the last failure, after three calls.  A response that
    passes ends the loop at once, one call after the failed ones and with
    no retry.  In the search, such a response whose decoded body is an
    object without ["esearchresult"], or whose ["esearchresult"] is an
    object without ["idlist"], raises the [ValueError] there; one whose
    body or ["esearchresult"] is null, a boolean or a number raises
    [TypeError] there instead. *)
Theorem C6_retry_policy
        (fromstring : string -> string + ET.Element)
        (query : string) (pubmed_ids : list string) (debug : bool) (w : World) :
  PyStr.all_space query = false ->
  pubmed_ids <> [] ->
  (forall e0 e1 e2,
     failures w (search_request query) [e0; e1; e2] ->
     exists w',
       fetch_pubmed_ids query debug w
       = (Err (RuntimeError ("Failed to fetch PubMed IDs after 3 attempts: " ++ e2)), w')
       /\ calls w' = (calls w ++ repeat (search_request query) 3)%list)
  /\ (forall e0 e1 e2,
        failures w (fetch_request pubmed_ids) [e0; e1; e2] ->
        exists w',
          fetch_paper_details fromstring pubmed_ids debug w
          = (Err (RuntimeError
                    ("Failed to fetch paper details after 3 attempts: " ++ e2)), w')
          /\ calls w' = (calls w ++ repeat (fetch_request pubmed_ids) 3)%list)
  /\ (forall msgs r data,
        List.length msgs <= 2 ->
        failures w (search_request query) msgs ->
        nth_outcome w (List.length msgs) (search_request query) = inr r ->
        transport_failure (inr r) = None ->
        json r = inr data ->
        exists res w',
          fetch_pubmed_ids query debug w = (res, w')
          /\ calls w'
             = (calls w ++ repeat (search_request query) (S (List.length msgs)))%list
          /\ final res
          /\ (lacks_idlist data ->
              res = Err (ValueError "Invalid response structure from PubMed API."))
          /\ (not_a_container data = true
              \/ (exists members v,
                    data = JObject members
                    /\ PyJson.lookup members "esearchresult" = Some v
                    /\ not_a_container v = true) ->
              res = Err TypeError))
  /\ (forall msgs r,
        List.length msgs <= 2 ->
        failures w (fetch_request pubmed_ids) msgs ->
        nth_outcome w (List.length msgs) (fetch_request pubmed_ids) = inr r ->
        transport_failure (inr r) = None ->
        exists res w',
          fetch_paper_details fromstring pubmed_ids debug w = (res, w')
          /\ calls w'
             = (calls w ++ repeat (fetch_request pubmed_ids)
                                  (S (List.length msgs)))%list).
Proof.
  intros Hq Hids. repeat split.
  - intros e0 e1 e2 Hf. rewrite fetch_pubmed_ids_unfold by trivial.
    exact (@loop_exhausted _ _ _ _ (lookup_turn_fails query debug) e0 e1 e2 w Hf).
  - intros e0 e1 e2 Hf. rewrite fetch_paper_details_unfold by trivial.
    exact (@loop_exhausted _ _ _ _ (fetch_turn_fails fromstring debug pubmed_ids)
             e0 e1 e2 w Hf).
  - intros msgs r data Hlen Hf Hr Hpass Hjson.
    destruct (@lookup_run debug query w msgs r data)
      as (res & w' & Hrun & Hcalls & Hfinal & Hres); trivial.
    exists res, w'.
    split; [exact Hrun|]. split; [exact Hcalls|]. split; [exact Hfinal|]. split.
    + intros Hlacks.
      destruct (idlist_of_outcome data) as (res' & Hres' & _ & Hval & _).
      specialize (Hres w). rewrite Hres' in Hres. injection Hres as <-.
      now apply Hval.
    + intros Hscalar. specialize (Hres w).
      rewrite (idlist_of_scalars w Hscalar) in Hres. now injection Hres as <-.
  - intros msgs r Hlen Hf Hr Hpass.
    destruct (@fetch_run fromstring debug pubmed_ids w msgs r)
      as (w' & Hrun & Hcalls); trivial.
    eauto.
Qed.

(** Servers that cannot be reached, and servers that answer 503 once and then
    a body without the envelope. *)
Lemma C6_retry_policy_witness :
  (exists w',
     fetch_pubmed_ids "cancer" false world_down
     = (Err (RuntimeError
               ("Failed to fetch PubMed IDs after 3 attempts: " ++ "Connection refused")),
        w')
     /\ calls w' = (calls world_down ++ repeat (search_request "cancer") 3)%list)
  /\ (exists res w',
        fetch_pubmed_ids "cancer" false world_flaky = (res, w')
        /\ calls w'
           = (calls world_flaky ++ repeat (search_request "cancer") 2)%list
        /\ final res
        /\ (lacks_idlist (JObject [("header", JObject [])]) ->
            res = Err (ValueError "Invalid response structure from PubMed API."))
        /\ (not_a_container (JObject [("header", JObject [])]) = true
            \/ (exists members v,
                  JObject [("header", JObject [])] = JObject members
                  /\ PyJson.lookup members "esearchresult" = Some v
                  /\ not_a_container v = true) ->
            res = Err TypeError)).
Proof.
  split.
  - refine (proj1 (@C6_retry_policy sample_fromstring "cancer" ["1"] false
                     world_down eq_refl _)
                  "Connection refused" "Connection refused" "Connection refused" _).
    + discriminate.
    + intros i msg Hi.
      destruct i as [|[|[|i]]]; simpl in Hi;
        try (injection Hi as <-; reflexivity); destruct i; discriminate.
  - refine (proj1 (proj2 (proj2 (@C6_retry_policy sample_fromstring "cancer" ["1"]
                                   false world_flaky eq_refl _)))
                  ["503 Server Error: Service Unavailable for url: https://eutils.ncbi.nlm.nih.gov/entrez/eutils/esearch.fcgi"]
                  _ (JObject [("header", JObject [])]) _ _ eq_refl eq_refl eq_refl).
    + discriminate.
    + simpl. lia.
    + intros i msg Hi.
      destruct i as [|i]; simpl in Hi;
        try (injection Hi as <-; reflexivity); destruct i; discriminate.
Defined.

(** C7: a query that is empty or made of white space only is refused with
    [ValueError] and the world is left as it was: no call is made. *)
Theorem C7_blank_query_rejected_without_call (query : string) (debug : bool) (w : World) :
  PyStr.all_space query = true ->
  fetch_pubmed_ids query debug w
  = (Err (ValueError "Query cannot be empty or whitespace."), w)
  /\ calls (snd (fetch_pubmed_ids query debug w)) = calls w.
Proof.
  intros H. unfold fetch_pubmed_ids. now rewrite strip_falsy, H.
Qed.

(** A query of three spaces. *)
Lemma C7_blank_query_rejected_without_call_witness :
  fetch_pubmed_ids "   " false world_up
  = (Err (ValueError "Query cannot be empty or whitespace."), world_up)
  /\ calls (snd (fetch_pubmed_ids "   " false world_up)) = calls world_up.
Proof.
  exact (@C7_blank_query_rejected_without_call "   " false world_up eq_refl).
Defined.

(** C8: for the empty list the function returns the empty list and the
    world is left as it was; for a non-empty list whose first attempt
    succeeds, the function ends after exactly one call. *)
Theorem C8_calls_of_fetch_paper_details
        (fromstring : string -> string + ET.Element) (debug : bool) (w : World) :
  fetch_paper_details fromstring [] debug w = (Ok (Some []), w)
  /\ (forall pubmed_ids r,
        pubmed_ids <> [] ->
        nth_outcome w 0 (fetch_request pubmed_ids) = inr r ->
        transport_failure (inr r) = None ->
        exists w',
          fetch_paper_details fromstring pubmed_ids debug w
          = (match fromstring (text r) with
             | inl e => Err (ValueError ("Failed to parse XML data: " ++ e))
             | inr root => Ok (Some (map paper_of_article (records_below root)))
             end, w')
          /\ calls w' = (calls w ++ [fetch_request pubmed_ids])%list).
Proof.
  split; [reflexivity|].
  intros pubmed_ids r Hids Hr Hpass.
  apply (@fetch_run fromstring debug pubmed_ids w [] r); trivial.
  - simpl. lia.
  - intros [|i] msg; discriminate.
Qed.

(** Two identifiers and servers that answer at once. *)
Lemma C8_calls_of_fetch_paper_details_witness :
  exists w',
    fetch_paper_details sample_fromstring ["1"; "2"] false world_up
    = (Ok (Some (map paper_of_article (records_below one_record_document))), w')
    /\ calls w' = (calls world_up ++ [fetch_request ["1"; "2"]])%list.
Proof.
  refine (proj2 (C8_calls_of_fetch_paper_details sample_fromstring false world_up)
                ["1"; "2"] _ _ eq_refl eq_refl).
  discriminate.
Defined.

(* ================================================================= *)
(** * Writing the rows *)

Section CsvFacts.

Variable filename : string.

Lemma file_content_update (fs : list (string * list (list string)))
      (f : list (list string) -> list (list string)) :
  Csv.file_content (Csv.update fs filename f) filename
  = Some (f (match Csv.file_content fs filename with
             | Some c => c
             | None => []
             end)).
Proof.
  induction fs as [|[n c] fs IH]; simpl.
  - now rewrite String.eqb_refl.
  - destruct (n =? filename) eqn:E; simpl; rewrite E; trivial.
Qed.

(** A row with the six keys, in the order of the header, is written as
    its six values. *)
Lemma dict_to_list_row (article : ET.Element) (w : World) :
  Csv.dict_to_list fieldnames (paper_of_article article) w
  = (Ok (map snd (paper_of_article article)), w).
Proof. rewrite paper_of_article_fields. reflexivity. Qed.

Lemma writerows_rows (articles : list ET.Element) (w : World)
      (content : list (list string)) :
  Csv.file_content (files w) filename = Some content ->
  exists w',
    Csv.writerows filename fieldnames (map paper_of_article articles) w = (Ok tt, w')
    /\ Csv.file_content (files w') filename
       = Some (content ++ map (fun row => map snd row)
                              (map paper_of_article articles))%list
    /\ calls w' = calls w.
Proof.
  revert w content. induction articles as [|a l IH]; intros w content Hc.
  - exists w. simpl. now rewrite app_nil_r.
  - cbn [map Csv.writerows]. unfold bind at 1. rewrite dict_to_list_row.
    unfold bind at 1, Csv.writer_writerow.
    set (w1 := Csv.update_file filename _ w).
    destruct (IH w1 (content ++ [map snd (paper_of_article a)])%list)
      as (w' & Hrun & Hcontent & Hcalls).
    + subst w1. simpl. now rewrite file_content_update, Hc.
    + exists w'. split; [exact Hrun|]. split; [|exact Hcalls].
      rewrite Hcontent, <- app_assoc. reflexivity.
Qed.

End CsvFacts.

(** C10: every row that the extraction produces has the six fields of the
    header, each once, in the order of the header, and no other; so
    writing the rows to a file that can be opened succeeds, and the file
    holds the header and, for every row in order, its six values. *)
Theorem C10_rows_fill_the_six_columns
        (fromstring : string -> string + ET.Element)
        (xml_data : string) (debug : bool) (w w1 : World)
        (rows : list PyDict.dict) (filename : string) (w2 : World) :
  parse_paper_details fromstring xml_data debug w = (Ok rows, w1) ->
  writable w2 filename = true ->
  Forall (fun row =>
            PyDict.keys row
            = ["PubmedID"; "Title"; "Publication Date"; "Non-academic Author(s)";
               "Company Affiliation(s)"; "Corresponding Author Email"]) rows
  /\ exists w3,
       save_to_csv filename rows w2 = (Ok tt, w3)
       /\ Csv.file_content (files w3) filename
          = Some (["PubmedID"; "Title"; "Publication Date"; "Non-academic Author(s)";
                   "Company Affiliation(s)"; "Corresponding Author Email"]
                  :: map (fun row => map snd row) rows)
       /\ Forall (fun row =>
                    List.length (map snd row) = 6
                    /\ forall key, In key fieldnames ->
                                   exists v, PyDict.get row key = Some v
                                             /\ In v (map snd row)) rows.
Proof.
  intros Hparse Hopen.
  destruct (parse_paper_details_outcome fromstring debug xml_data w)
    as (w' & H & _).
  rewrite Hparse in H.
  destruct (fromstring xml_data) as [e|root]; [discriminate|].
  injection H as -> _.
  split; [|].
  { apply Forall_forall. intros row Hrow.
    apply in_map_iff in Hrow as (a & <- & _).
    now rewrite paper_of_article_fields. }
  unfold save_to_csv, bind, Csv.open_w. rewrite Hopen.
  unfold Csv.writeheader, Csv.writer_writerow.
  set (w0 := Csv.update_file filename _ (Csv.update_file filename _ w2)).
  destruct (@writerows_rows filename (records_below root) w0 [fieldnames])
    as (w3 & Hrun & Hcontent & _).
  { subst w0. simpl. now rewrite !file_content_update. }
  exists w3. split; [exact Hrun|]. split; [exact Hcontent|].
  apply Forall_forall. intros row Hrow.
  apply in_map_iff in Hrow as (a & <- & _).
  rewrite paper_of_article_fields. split; [reflexivity|].
  intros key Hkey. simpl in Hkey.
  destruct Hkey as [<-|[<-|[<-|[<-|[<-|[<-|[]]]]]]];
    (eexists; split; [reflexivity|]; simpl; tauto).
Qed.

(** The row of one record, written to "papers.csv". *)
Lemma C10_rows_fill_the_six_columns_witness :
  Forall (fun row =>
            PyDict.keys row
            = ["PubmedID"; "Title"; "Publication Date"; "Non-academic Author(s)";
               "Company Affiliation(s)"; "Corresponding Author Email"])
         [paper_of_article root_record]
  /\ exists w3,
       save_to_csv "papers.csv" [paper_of_article root_record] world_up = (Ok tt, w3)
       /\ Csv.file_content (files w3) "papers.csv"
          = Some (["PubmedID"; "Title"; "Publication Date"; "Non-academic Author(s)";
                   "Company Affiliation(s)"; "Corresponding Author Email"]
                  :: map (fun row => map snd row) [paper_of_article root_record])
       /\ Forall (fun row =>
                    List.length (map snd row) = 6
                    /\ forall key, In key fieldnames ->
                                   exists v, PyDict.get row key = Some v
                                             /\ In v (map snd row))
                 [paper_of_article root_record].
Proof.
  exact (@C10_rows_fill_the_six_columns sample_fromstring
           "<PubmedArticleSet><PubmedArticle><PMID>1</PMID></PubmedArticle></PubmedArticleSet>"
           false world_up world_up [paper_of_article root_record]
           "papers.csv" world_up eq_refl eq_refl).
Defined.

(* ================================================================= *)
(** * Further properties: the e-mail pattern *)

Section GreedyFacts.

Variable cls : ascii -> bool.

Let stops (c : option ascii) : Prop :=
  match c with
  | None => True
  | Some c => cls c = false
  end.

(** At the end of the pattern, [plus] takes the whole run of the class. *)
Lemma plus_accept_takes_the_run (s m : string) :
  Re.plus cls Re.accept s = Some m ->
  exists post, s = m ++ post /\ PyStr.all_chars cls m = true
               /\ stops (first_char post).
Proof.
  revert m; induction s as [|c s IH]; intros m; simpl; [discriminate|].
  destruct (cls c) eqn:Hc; [|discriminate].
  destruct (Re.plus cls Re.accept s) as [m1|] eqn:Hp.
  - intros [= <-]. destruct (IH _ eq_refl) as (post & -> & Hm & Hpost).
    exists post. simpl. rewrite Hc. now repeat split.
  - simpl. intros [= <-]. exists s. simpl. rewrite Hc. repeat split.
    destruct s as [|d s]; simpl in *; trivial.
    destruct (cls d); [|reflexivity].
    destruct (Re.plus cls Re.accept s); discriminate.
Qed.

(** Where [plus] matches, it also matches one character of the class
    earlier. *)
Lemma plus_extends_left (k : Re.matcher) (c : ascii) (s m : string) :
  cls c = true -> Re.plus cls k s = Some m ->
  Re.plus cls k (String c s) = Some (String c m).
Proof. intros Hc H. simpl. now rewrite Hc, H. Qed.

Lemma all_chars_exclude (c : ascii) (s : string) :
  cls c = false -> PyStr.all_chars cls s = true ->
  PyStr.str_in (String c "") s = false.
Proof.
  intros Hc. induction s as [|d s IH]; simpl; [reflexivity|].
  intros H. apply andb_true_iff in H as [Hd Hs].
  rewrite (IH Hs), orb_false_r.
  destruct (ascii_dec c d) as [->|]; [congruence|reflexivity].
Qed.

End GreedyFacts.

(** [search] answers the match at the first position where the pattern
    matches: it matches nowhere before. *)
Lemma search_first (pattern : Re.matcher) (s m : string) :
  Re.search pattern s = Some m ->
  exists pre rest,
    s = pre ++ rest /\ pattern rest = Some m
    /\ forall pre1 c pre2, pre = pre1 ++ String c pre2 ->
                           pattern (String c pre2 ++ rest) = None.
Proof.
  induction s as [|c s IH]; simpl.
  - destruct (pattern "") eqn:E; [|discriminate].
    intros [= <-]. exists "", "". repeat split; trivial.
    intros [|x pre1] d pre2; discriminate.
  - destruct (pattern (String c s)) eqn:E.
    + intros [= <-]. exists "", (String c s). repeat split; trivial.
      intros [|x pre1] d pre2; discriminate.
    + intros H. destruct (IH H) as (pre & rest & -> & Hm & Hnone).
      exists (String c pre), rest. repeat split; trivial.
      intros [|x pre1] d pre2; simpl; intros [= -> Hpre].
      * now subst pre2.
      * now apply (Hnone pre1).
Qed.

Lemma last_char_split (s : string) (c : ascii) :
  last_char s = Some c -> exists s', s = s' ++ String c "".
Proof.
  induction s as [|d s IH]; [discriminate|].
  destruct s as [|e s].
  - intros [= ->]. now exists "".
  - intros H. destruct (IH H) as [s' Hs']. exists (String d s').
    simpl. now rewrite <- Hs'.
Qed.

(** X9: the address that [re.search] finds holds exactly one [@] and is not
    cut short: the character before it and the character after it, when
    there are any, are not word, dot or hyphen characters. *)
Theorem email_match_is_maximal (s m : string) :
  Re.search Re.email_pattern s = Some m ->
  exists pre post l r,
    s = pre ++ m ++ post
    /\ m = l ++ "@" ++ r
    /\ PyStr.str_in "@" l = false
    /\ PyStr.str_in "@" r = false
    /\ stops_email (last_char pre)
    /\ stops_email (first_char post).
Proof.
  intros H. apply search_first in H as (pre & rest & -> & H & Hfirst).
  assert (Hleft : stops_email (last_char pre)).
  { destruct (last_char pre) as [c|] eqn:E; simpl; trivial.
    apply last_char_split in E as [pre1 ->].
    destruct (Re.email_class c) eqn:Hc; trivial.
    specialize (Hfirst pre1 c "" eq_refl). simpl in Hfirst.
    unfold Re.email_pattern in Hfirst, H.
    rewrite (@plus_extends_left Re.email_class _ c rest m Hc H) in Hfirst.
    discriminate. }
  apply plus_sound in H as (l & rest1 & m1 & -> & Hl & Hcl & H & ->).
  apply lit_sound in H as (rest2 & m2 & -> & H & ->).
  apply plus_accept_takes_the_run in H as (post & -> & Hcr & Hpost).
  exists pre, post, l, m2. repeat split; trivial.
  - f_equal. rewrite !append_assoc. reflexivity.
  - now apply all_chars_exclude with (cls := Re.email_class).
  - now apply all_chars_exclude with (cls := Re.email_class).
Qed.

(** The address in "contact: jane.doe@acme.com, Boston". *)
Lemma email_match_is_maximal_witness :
  exists pre post l r,
    "contact: jane.doe@acme.com, Boston" = pre ++ "jane.doe@acme.com" ++ post
    /\ "jane.doe@acme.com" = l ++ "@" ++ r
    /\ PyStr.str_in "@" l = false
    /\ PyStr.str_in "@" r = false
    /\ stops_email (last_char pre)
    /\ stops_email (first_char post).
Proof.
  exact (@email_match_is_maximal "contact: jane.doe@acme.com, Boston"
           "jane.doe@acme.com" eq_refl).
Defined.

(* ================================================================= *)
(** * Further properties: one row *)

Lemma findtext_first_below (t : string) (e : ET.Element) :
  PyStr.or_ (ET.findtext e [ET.Self; ET.Descendant t]) "Unknown"
  = text_or_unknown (first_below t e).
Proof.
  unfold ET.findtext, first_below. fold (ET.findall e [ET.Self; ET.Descendant t]).
  rewrite findall_descendants.
  destruct (filter _ (ET.below e)) as [|[t' [[|c s]|] cs] l]; reflexivity.
Qed.

(** X7: the identifier and the title of a row are the texts of the first
    [PMID] and the first [ArticleTitle] element below the record element,
    in document order; each is "Unknown" when there is no such element or
    when its text is missing or empty. *)
Theorem id_and_title_of_first_match (article : ET.Element) :
  PyDict.get (paper_of_article article) "PubmedID"
  = Some (text_or_unknown (first_below "PMID" article))
  /\ PyDict.get (paper_of_article article) "Title"
     = Some (text_or_unknown (first_below "ArticleTitle" article)).
Proof.
  rewrite paper_of_article_fields. unfold path_PMID, path_ArticleTitle.
  rewrite !findtext_first_below. split; reflexivity.
Qed.

(** X8: a record without authors, or whose authors all lack an affiliation
    text, has "None" in the two author fields and in the e-mail field. *)
Theorem no_affiliation_no_author_fields (article : ET.Element) :
  (forall a, In a (authors_of article) -> author_affiliation a = "") ->
  PyDict.get (paper_of_article article) "Non-academic Author(s)" = Some "None"
  /\ PyDict.get (paper_of_article article) "Company Affiliation(s)" = Some "None"
  /\ PyDict.get (paper_of_article article) "Corresponding Author Email" = Some "None".
Proof.
  intros H. rewrite paper_of_article_fields.
  assert (Hflag : flagged_authors article = []).
  { unfold flagged_authors.
    induction (authors_of article) as [|a l IH]; simpl; trivial.
    rewrite (H a (or_introl eq_refl)). simpl. apply IH.
    intros b Hb. apply H. now right. }
  assert (Hmail : email_after (authors_of article) "None" = "None").
  { apply email_after_none. intros b Hb. now rewrite (H b Hb). }
  rewrite Hflag, Hmail. repeat split.
Qed.

(** The record that holds a [PMID] and nothing else. *)
Lemma no_affiliation_no_author_fields_witness :
  PyDict.get (paper_of_article root_record) "Non-academic Author(s)" = Some "None"
  /\ PyDict.get (paper_of_article root_record) "Company Affiliation(s)" = Some "None"
  /\ PyDict.get (paper_of_article root_record) "Corresponding Author Email"
     = Some "None".
Proof.
  apply (@no_affiliation_no_author_fields root_record). intros a [].
Defined.

(* ================================================================= *)
(** * Further properties: every case of one attempt *)

Section TurnFacts.

Variable fromstring : string -> string + ET.Element.
Variable debug : bool.

(** One attempt of the search, case by case. *)
Lemma lookup_turn (query : string) (attempt : nat) (rest : list nat) (w : World) :
  fetch_pubmed_ids_attempts query debug (req_params (search_request query))
    (attempt :: rest) w
  = let rq := search_request query in
    match nth_outcome w 0 rq with
    | inl msg => lookup_retry query debug attempt rest msg (log_call rq w)
    | inr r =>
        match transport_failure (inr r) with
        | Some msg => lookup_retry query debug attempt rest msg (log_call rq w)
        | None =>
            let w2 := search_echo query debug r (log_call rq w) in
            match json r with
            | inl (RequestException msg) =>
                lookup_retry query debug attempt rest msg w2
            | inl e => (Err e, w2)
            | inr data => (fst (idlist_of data w2), w2)
            end
        end
    end.
Proof.
  cbv zeta.
  destruct (nth_outcome w 0 (search_request query)) as [msg|r] eqn:Hr.
  { rewrite lookup_turn_fails with (msg := msg) by now rewrite Hr.
    reflexivity. }
  destruct (transport_failure (inr r)) as [msg|] eqn:Hpass.
  { rewrite lookup_turn_fails with (msg := msg) by now rewrite Hr.
    reflexivity. }
  cbn [fetch_pubmed_ids_attempts].
  unfold bind at 1. unfold try_except.
  rewrite (@request_passes _ PUBMED_BASE_URL (req_params (search_request query))
             _ w r Hr Hpass).
  change {| req_url := PUBMED_BASE_URL;
            req_params := req_params (search_request query) |}
    with (search_request query).
  unfold bind at 1.
  assert (Hecho : when debug
                    (print [VStr "Fetching PubMed IDs with query:"; VStr query] ;;
                     print [VStr "Response:"; VStr (text r)])
                    (log_call (search_request query) w)
                  = (Ok tt, search_echo query debug r
                              (log_call (search_request query) w))).
  { unfold search_echo. now destruct debug. }
  rewrite Hecho. unfold bind at 1, response_json.
  destruct (json r) as [e|data].
  - unfold raise at 1. unfold lookup_retry, retry_notice.
    destruct e; try reflexivity.
    now destruct (attempt <? 2)%nat.
  - unfold ret at 1.
    destruct (idlist_of_outcome data) as (res & Hres & Hfinal & _).
    rewrite Hres. simpl fst.
    destruct res as [[v|]|e]; simpl in Hfinal; try contradiction; trivial.
    destruct e; try contradiction; reflexivity.
Qed.

(** One attempt of the fetch, case by case. *)
Lemma fetch_turn (pubmed_ids : list string) (attempt : nat) (rest : list nat)
      (w : World) :
  fetch_paper_details_attempts fromstring pubmed_ids debug
    (req_params (fetch_request pubmed_ids)) (attempt :: rest) w
  = let rq := fetch_request pubmed_ids in
    match nth_outcome w 0 rq with
    | inl msg => fetch_retry fromstring pubmed_ids debug attempt rest msg (log_call rq w)
    | inr r =>
        match transport_failure (inr r) with
        | Some msg =>
            fetch_retry fromstring pubmed_ids debug attempt rest msg (log_call rq w)
        | None =>
            let w2 := fetch_echo pubmed_ids debug r (log_call rq w) in
            (match fst (parse_paper_details fromstring (text r) debug w2) with
             | Ok papers => Ok (Some papers)
             | Err e => Err e
             end,
             snd (parse_paper_details fromstring (text r) debug w2))
        end
    end.
Proof.
  cbv zeta.
  destruct (nth_outcome w 0 (fetch_request pubmed_ids)) as [msg|r] eqn:Hr.
  { rewrite fetch_turn_fails with (msg := msg) by now rewrite Hr.
    reflexivity. }
  destruct (transport_failure (inr r)) as [msg|] eqn:Hpass.
  { rewrite fetch_turn_fails with (msg := msg) by now rewrite Hr.
    reflexivity. }
  cbn [fetch_paper_details_attempts].
  unfold bind at 1. unfold try_except.
  rewrite (@request_passes _ PUBMED_FETCH_URL (req_params (fetch_request pubmed_ids))
             _ w r Hr Hpass).
  change {| req_url := PUBMED_FETCH_URL;
            req_params := req_params (fetch_request pubmed_ids) |}
    with (fetch_request pubmed_ids).
  unfold bind at 1.
  assert (Hecho : when debug
                    (print [VStr "Fetching details for PubMed IDs:";
                            VStrList pubmed_ids] ;;
                     print [VStr "Response:"; VStr (text r)])
                    (log_call (fetch_request pubmed_ids) w)
                  = (Ok tt, fetch_echo pubmed_ids debug r
                              (log_call (fetch_request pubmed_ids) w))).
  { unfold fetch_echo. now destruct debug. }
  rewrite Hecho. unfold bind at 1.
  destruct (parse_paper_details_outcome fromstring debug (text r)
              (fetch_echo pubmed_ids debug r (log_call (fetch_request pubmed_ids) w)))
    as (w3 & Hparse & _).
  rewrite Hparse. simpl.
  now destruct (fromstring (text r)).
Qed.

End TurnFacts.

(* ================================================================= *)
(** * Further properties: the loops always end *)

Section BoundedRetry.

Variable A : Type.
Variable loop : list nat -> M (option A).
Variable rq : Request.

(** An attempt makes one call and touches nothing but the console; it ends
    the loop, or it is not the last one and the loop goes on. *)
Hypothesis turn :
  forall (attempt : nat) (rest : list nat) (w : World),
  exists w1,
    calls w1 = (calls w ++ [rq])%list
    /\ net w1 = net w /\ writable w1 = writable w /\ files w1 = files w
    /\ ((exists res, loop (attempt :: rest) w = (res, w1) /\ final res)
        \/ ((attempt <? 2)%nat = true /\ loop (attempt :: rest) w = loop rest w1)).

Lemma loop_ends (n a : nat) (w : World) :
  a + n = 3 -> 1 <= n ->
  exists res w' k,
    loop (seq a n) w = (res, w')
    /\ final res
    /\ 1 <= k <= n
    /\ calls w' = (calls w ++ repeat rq k)%list
    /\ net w' = net w /\ writable w' = writable w /\ files w' = files w.
Proof.
  revert a w. induction n as [|n IH]; intros a w Ha Hn; [lia|].
  cbn [seq].
  destruct (turn a (seq (S a) n) w)
    as (w1 & Hcalls & Hnet & Hwr & Hfiles & [(res & Hrun & Hfinal)|[Hlt Hrun]]).
  - exists res, w1, 1. rewrite Hrun. repeat split; trivial; lia.
  - apply Nat.ltb_lt in Hlt.
    destruct (IH (S a) w1) as (res & w' & k & Hrun' & Hfinal & Hk & Hcalls' & Hnet' & Hwr' & Hfiles');
      try lia.
    exists res, w', (S k). rewrite Hrun, Hrun'. repeat split; trivial; try lia.
    + rewrite Hcalls', Hcalls, <- app_assoc. reflexivity.
    + congruence.
    + congruence.
    + congruence.
Qed.

End BoundedRetry.

Section EndFacts.

Variable fromstring : string -> string + ET.Element.
Variable debug : bool.

(** The world after [parse_paper_details]: one more line on the console
    under the debug flag when the document parses, and nothing else. *)
Lemma parse_paper_details_world (xml_data : string) (w : World) :
  snd (parse_paper_details fromstring xml_data debug w)
  = match fromstring xml_data with
    | inl _ => w
    | inr root =>
        if debug
        then log_print [VStr "Parsed Papers:";
                        VDictList (map paper_of_article (records_below root))] w
        else w
    end.
Proof.
  unfold parse_paper_details.
  destruct (fromstring xml_data) as [e|root]; [reflexivity|].
  unfold path_PubmedArticle. rewrite findall_descendants.
  rewrite (fold_left_append paper_of_article). simpl app.
  fold is_record. fold (records_below root).
  now destruct debug.
Qed.

Lemma lookup_turn_ends_or_goes_on (query : string) (attempt : nat)
      (rest : list nat) (w : World) :
  exists w1,
    calls w1 = (calls w ++ [search_request query])%list
    /\ net w1 = net w /\ writable w1 = writable w /\ files w1 = files w
    /\ ((exists res,
           fetch_pubmed_ids_attempts query debug (req_params (search_request query))
             (attempt :: rest) w = (res, w1) /\ final res)
        \/ ((attempt <? 2)%nat = true
            /\ fetch_pubmed_ids_attempts query debug
                 (req_params (search_request query)) (attempt :: rest) w
               = fetch_pubmed_ids_attempts query debug
                   (req_params (search_request query)) rest w1)).
Proof.
  rewrite lookup_turn. cbv zeta. unfold lookup_retry.
  set (rq := search_request query).
  assert (Hretry : forall msg w0,
             calls w0 = (calls w ++ [rq])%list ->
             net w0 = net w -> writable w0 = writable w -> files w0 = files w ->
             exists w1,
               calls w1 = (calls w ++ [rq])%list
               /\ net w1 = net w /\ writable w1 = writable w /\ files w1 = files w
               /\ ((exists res,
                      (if (attempt <? 2)%nat
                       then fetch_pubmed_ids_attempts query debug (req_params rq)
                              rest (retry_notice msg w0)
                       else (Err (RuntimeError
                                    ("Failed to fetch PubMed IDs after 3 attempts: "
                                     ++ msg)), w0)) = (res, w1) /\ final res)
                   \/ ((attempt <? 2)%nat = true
                       /\ (if (attempt <? 2)%nat
                           then fetch_pubmed_ids_attempts query debug (req_params rq)
                                  rest (retry_notice msg w0)
                           else (Err (RuntimeError
                                        ("Failed to fetch PubMed IDs after 3 attempts: "
                                         ++ msg)), w0))
                          = fetch_pubmed_ids_attempts query debug (req_params rq)
                              rest w1))).
  { intros msg w0 Hc Hn Hw Hf. destruct (attempt <? 2)%nat.
    - exists (retry_notice msg w0). repeat split; trivial. now right.
    - exists w0. repeat split; trivial. left. eexists. split; [reflexivity|exact I]. }
  assert (Hecho : forall r,
             calls (search_echo query debug r (log_call rq w)) = (calls w ++ [rq])%list
             /\ net (search_echo query debug r (log_call rq w)) = net w
             /\ writable (search_echo query debug r (log_call rq w)) = writable w
             /\ files (search_echo query debug r (log_call rq w)) = files w).
  { intros r. unfold search_echo. destruct debug; now repeat split. }
  destruct (nth_outcome w 0 rq) as [msg|r]; [now apply Hretry|].
  destruct (transport_failure (inr r)) as [msg|]; [now apply Hretry|].
  destruct (Hecho r) as (Hc & Hn & Hw & Hf).
  destruct (json r) as [e|data].
  - destruct e; try (now apply Hretry);
      (exists (search_echo query debug r (log_call rq w));
       split; [exact Hc|]; split; [exact Hn|]; split; [exact Hw|];
       split; [exact Hf|]; left; eexists; split; [reflexivity|exact I]).
  - destruct (idlist_of_outcome data) as (res & Hres & Hfinal & _).
    rewrite Hres. exists (search_echo query debug r (log_call rq w)).
    split; [exact Hc|]. split; [exact Hn|]. split; [exact Hw|].
    split; [exact Hf|]. left. now exists res.
Qed.

Lemma fetch_turn_ends_or_goes_on (pubmed_ids : list string) (attempt : nat)
      (rest : list nat) (w : World) :
  exists w1,
    calls w1 = (calls w ++ [fetch_request pubmed_ids])%list
    /\ net w1 = net w /\ writable w1 = writable w /\ files w1 = files w
    /\ ((exists res,
           fetch_paper_details_attempts fromstring pubmed_ids debug
             (req_params (fetch_request pubmed_ids)) (attempt :: rest) w = (res, w1)
           /\ final res)
        \/ ((attempt <? 2)%nat = true
            /\ fetch_paper_details_attempts fromstring pubmed_ids debug
                 (req_params (fetch_request pubmed_ids)) (attempt :: rest) w
               = fetch_paper_details_attempts fromstring pubmed_ids debug
                   (req_params (fetch_request pubmed_ids)) rest w1)).
Proof.
  rewrite fetch_turn. cbv zeta. unfold fetch_retry.
  set (rq := fetch_request pubmed_ids).
  assert (Hretry : forall msg,
             exists w1,
               calls w1 = (calls w ++ [rq])%list
               /\ net w1 = net w /\ writable w1 = writable w /\ files w1 = files w
               /\ ((exists res,
                      (if (attempt <? 2)%nat
                       then fetch_paper_details_attempts fromstring pubmed_ids debug
                              (req_params rq) rest (retry_notice msg (log_call rq w))
                       else (Err (RuntimeError
                                    ("Failed to fetch paper details after 3 attempts: "
                                     ++ msg)), log_call rq w)) = (res, w1)
                      /\ final res)
                   \/ ((attempt <? 2)%nat = true
                       /\ (if (attempt <? 2)%nat
                           then fetch_paper_details_attempts fromstring pubmed_ids
                                  debug (req_params rq) rest
                                  (retry_notice msg (log_call rq w))
                           else (Err (RuntimeError
                                        ("Failed to fetch paper details after 3 attempts: "
                                         ++ msg)), log_call rq w))
                          = fetch_paper_details_attempts fromstring pubmed_ids debug
                              (req_params rq) rest w1))).
  { intros msg. destruct (attempt <? 2)%nat.
    - exists (retry_notice msg (log_call rq w)). repeat split; trivial. now right.
    - exists (log_call rq w). repeat split; trivial.
      left. eexists. split; [reflexivity|exact I]. }
  destruct (nth_outcome w 0 rq) as [msg|r]; [now apply Hretry|].
  destruct (transport_failure (inr r)) as [msg|]; [now apply Hretry|].
  rewrite parse_paper_details_world.
  destruct (parse_paper_details_outcome fromstring debug (text r)
              (fetch_echo pubmed_ids debug r (log_call rq w))) as (w3 & -> & _).
  simpl fst.
  assert (Hecho : calls (fetch_echo pubmed_ids debug r (log_call rq w))
                  = (calls w ++ [rq])%list
                  /\ net (fetch_echo pubmed_ids debug r (log_call rq w)) = net w
                  /\ writable (fetch_echo pubmed_ids debug r (log_call rq w))
                     = writable w
                  /\ files (fetch_echo pubmed_ids debug r (log_call rq w)) = files w).
  { unfold fetch_echo. destruct debug; now repeat split. }
  destruct Hecho as (Hc & Hn & Hw & Hf).
  destruct (fromstring (text r)) as [e|root].
  - eexists. split; [exact Hc|]. split; [exact Hn|]. split; [exact Hw|].
    split; [exact Hf|]. left. eexists. split; [reflexivity|exact I].
  - destruct debug;
      (eexists; split; [|split; [|split; [|split;
         [|left; eexists; split; [reflexivity|exact I]]]]]; trivial).
Qed.

End EndFacts.

(** X1: for a query that is not blank, [fetch_pubmed_ids] always ends after
    one, two or three calls, all of them the same search request; it
    returns a value ([None] never) or raises an exception that is not a
    [RequestException], and it writes no file. *)
Theorem fetch_pubmed_ids_ends_within_three_calls
        (query : string) (debug : bool) (w : World) :
  PyStr.all_space query = false ->
  exists res w' k,
    fetch_pubmed_ids query debug w = (res, w')
    /\ final res
    /\ 1 <= k <= 3
    /\ calls w' = (calls w ++ repeat (search_request query) k)%list
    /\ files w' = files w.
Proof.
  intros Hq. rewrite fetch_pubmed_ids_unfold by trivial.
  destruct (@loop_ends _ _ _ (lookup_turn_ends_or_goes_on debug query) 3 0 w)
    as (res & w' & k & Hrun & Hfinal & Hk & Hcalls & _ & _ & Hfiles); try lia.
  exists res, w', k. now repeat split.
Qed.

(** The query "cancer" while no server can be reached. *)
Lemma fetch_pubmed_ids_ends_within_three_calls_witness :
  exists res w' k,
    fetch_pubmed_ids "cancer" true world_down = (res, w')
    /\ final res
    /\ 1 <= k <= 3
    /\ calls w' = (calls world_down ++ repeat (search_request "cancer") k)%list
    /\ files w' = files world_down.
Proof.
  exact (@fetch_pubmed_ids_ends_within_three_calls "cancer" true world_down eq_refl).
Defined.

(** X2: for a list of identifiers that is not empty, [fetch_paper_details]
    always ends after one, two or three calls, all of them the same fetch
    request; it returns a list of rows ([None] never) or raises an
    exception that is not a [RequestException], and it writes no file. *)
Theorem fetch_paper_details_ends_within_three_calls
        (fromstring : string -> string + ET.Element)
        (pubmed_ids : list string) (debug : bool) (w : World) :
  pubmed_ids <> [] ->
  exists res w' k,
    fetch_paper_details fromstring pubmed_ids debug w = (res, w')
    /\ final res
    /\ 1 <= k <= 3
    /\ calls w' = (calls w ++ repeat (fetch_request pubmed_ids) k)%list
    /\ files w' = files w.
Proof.
  intros Hids. rewrite fetch_paper_details_unfold by trivial.
  destruct (@loop_ends _ _ _
              (fetch_turn_ends_or_goes_on fromstring debug pubmed_ids) 3 0 w)
    as (res & w' & k & Hrun & Hfinal & Hk & Hcalls & _ & _ & Hfiles); try lia.
  exists res, w', k. now repeat split.
Qed.

(** Two identifiers while the servers answer 503 once. *)
Lemma fetch_paper_details_ends_within_three_calls_witness :
  exists res w' k,
    fetch_paper_details sample_fromstring ["1"; "2"] true world_flaky = (res, w')
    /\ final res
    /\ 1 <= k <= 3
    /\ calls w' = (calls world_flaky ++ repeat (fetch_request ["1"; "2"]) k)%list
    /\ files w' = files world_flaky.
Proof.
  refine (@fetch_paper_details_ends_within_three_calls sample_fromstring
            ["1"; "2"] true world_flaky _).
  discriminate.
Defined.

(* ================================================================= *)
(** * Further properties: what the search returns and raises *)

Lemma nth_outcome_later (w w1 : World) (cs : list Request) (k : nat) (rq : Request) :
  net w1 = net w -> calls w1 = (calls w ++ cs)%list ->
  nth_outcome w1 k rq = nth_outcome w (List.length cs + k) rq.
Proof.
  intros Hn Hc. unfold nth_outcome. rewrite Hn, Hc, length_app.
  f_equal. lia.
Qed.

(** X3: after at most two failed attempts, a response that passes and
    whose body holds the envelope makes [fetch_pubmed_ids] return the
    value of ["idlist"] in ["esearchresult"], as it is, one call after
    the failed ones. *)
Theorem fetch_pubmed_ids_returns_the_idlist
        (query : string) (debug : bool) (w : World) (msgs : list string)
        (r : Response) (members result : list (string * JSON)) (idlist : JSON) :
  PyStr.all_space query = false ->
  List.length msgs <= 2 ->
  failures w (search_request query) msgs ->
  nth_outcome w (List.length msgs) (search_request query) = inr r ->
  transport_failure (inr r) = None ->
  json r = inr (JObject members) ->
  PyJson.lookup members "esearchresult" = Some (JObject result) ->
  PyJson.lookup result "idlist" = Some idlist ->
  exists w',
    fetch_pubmed_ids query debug w = (Ok (Some idlist), w')
    /\ calls w' = (calls w ++ repeat (search_request query) (S (List.length msgs)))%list.
Proof.
  intros Hq Hlen Hf Hr Hpass Hjson Hres Hids.
  destruct (@lookup_run debug query w msgs r (JObject members))
    as (res & w' & Hrun & Hcalls & _ & Hval); trivial.
  destruct (idlist_of_outcome (JObject members)) as (res' & Hres' & _ & _ & Hok).
  specialize (Hval w). rewrite Hres' in Hval. injection Hval as <-.
  rewrite (Hok members result idlist eq_refl Hres Hids) in Hrun.
  now exists w'.
Qed.

(** The servers that answer at once with one identifier. *)
Lemma fetch_pubmed_ids_returns_the_idlist_witness :
  exists w',
    fetch_pubmed_ids "cancer" false world_up = (Ok (Some (JArray [JString "1"])), w')
    /\ calls w' = (calls world_up ++ repeat (search_request "cancer") 1)%list.
Proof.
  refine (@fetch_pubmed_ids_returns_the_idlist "cancer" false world_up []
            _ _ _ _ eq_refl _ _ eq_refl eq_refl eq_refl eq_refl eq_refl).
  - simpl. lia.
  - intros [|i] msg; discriminate.
Defined.

(** X4: a body that decodes to null, a boolean or a number, or to an
    object whose ["esearchresult"] is one of these, makes
    [fetch_pubmed_ids] raise [TypeError], not the [ValueError] of a missing
    envelope, after that one call. *)
Theorem fetch_pubmed_ids_TypeError_on_scalars
        (query : string) (debug : bool) (w : World) (r : Response) (data : JSON) :
  PyStr.all_space query = false ->
  nth_outcome w 0 (search_request query) = inr r ->
  transport_failure (inr r) = None ->
  json r = inr data ->
  (not_a_container data = true
   \/ exists members v,
        data = JObject members
        /\ PyJson.lookup members "esearchresult" = Some v
        /\ not_a_container v = true) ->
  fetch_pubmed_ids query debug w
  = (Err TypeError, search_echo query debug r (log_call (search_request query) w)).
Proof.
  intros Hq Hr Hpass Hjson Hdata.
  rewrite fetch_pubmed_ids_unfold by trivial.
  cbn [seq]. rewrite lookup_turn. cbv zeta. rewrite Hr, Hpass, Hjson.
  f_equal.
  destruct Hdata as [Hd|(members & v & -> & Hv & Hd)].
  - destruct data; try discriminate; reflexivity.
  - unfold idlist_of, bind. simpl. rewrite Hv. simpl.
    destruct v; try discriminate; reflexivity.
Qed.

(** A body that is the number 5. *)
Lemma fetch_pubmed_ids_TypeError_on_scalars_witness :
  fetch_pubmed_ids "cancer" false world_number
  = (Err TypeError,
     search_echo "cancer" false (sample_response 200 "OK" "5" (inr (JNumber "5")))
       (log_call (search_request "cancer") world_number)).
Proof.
  refine (@fetch_pubmed_ids_TypeError_on_scalars "cancer" false world_number
            _ (JNumber "5") eq_refl eq_refl eq_refl eq_refl _).
  now left.
Defined.

Lemma lookup_turn_decode_fails (query : string) (debug : bool) (attempt : nat)
      (rest : list nat) (w : World) (msg : string) :
  decode_failure (nth_outcome w 0 (search_request query)) = Some msg ->
  exists w1,
    fetch_pubmed_ids_attempts query debug (req_params (search_request query))
      (attempt :: rest) w
    = lookup_retry query debug attempt rest msg w1
    /\ calls w1 = (calls w ++ [search_request query])%list
    /\ net w1 = net w.
Proof.
  intros H. rewrite lookup_turn. cbv zeta.
  unfold decode_failure in H.
  destruct (nth_outcome w 0 (search_request query)) as [m|r]; [discriminate|].
  destruct (transport_failure (inr r)); [discriminate|].
  destruct (json r) as [[]|]; try discriminate.
  injection H as ->.
  eexists. split; [reflexivity|].
  unfold search_echo. destruct debug; now split.
Qed.

(** X5: an exception of [response.json()] that is not a
    [RequestException] leaves [fetch_pubmed_ids] at once, after that one
    call; one that is a [RequestException] counts as a failed attempt:
    after three of them the function raises [RuntimeError] with the
    message of the last. *)
Theorem fetch_pubmed_ids_decode_errors
        (query : string) (debug : bool) (w : World) :
  PyStr.all_space query = false ->
  (forall r e,
     nth_outcome w 0 (search_request query) = inr r ->
     transport_failure (inr r) = None ->
     json r = inl e ->
     (forall msg, e <> RequestException msg) ->
     fetch_pubmed_ids query debug w
     = (Err e, search_echo query debug r (log_call (search_request query) w)))
  /\ (forall m0 m1 m2,
        decode_failure (nth_outcome w 0 (search_request query)) = Some m0 ->
        decode_failure (nth_outcome w 1 (search_request query)) = Some m1 ->
        decode_failure (nth_outcome w 2 (search_request query)) = Some m2 ->
        exists w',
          fetch_pubmed_ids query debug w
          = (Err (RuntimeError ("Failed to fetch PubMed IDs after 3 attempts: " ++ m2)),
             w')
          /\ calls w' = (calls w ++ repeat (search_request query) 3)%list).
Proof.
  intros Hq. split.
  - intros r e Hr Hpass Hjson He.
    rewrite fetch_pubmed_ids_unfold by trivial.
    cbn [seq]. rewrite lookup_turn. cbv zeta. rewrite Hr, Hpass, Hjson.
    destruct e; trivial. now destruct (He msg).
  - intros m0 m1 m2 H0 H1 H2.
    rewrite fetch_pubmed_ids_unfold by trivial. cbn [seq].
    destruct (lookup_turn_decode_fails query debug 0 [1; 2] w H0)
      as (w1 & -> & Hc1 & Hn1).
    unfold lookup_retry at 1. cbn [Nat.ltb Nat.leb].
    assert (Hn1' : net (retry_notice m0 w1) = net w) by exact Hn1.
    assert (Hc1' : calls (retry_notice m0 w1) = (calls w ++ [search_request query])%list)
      by exact Hc1.
    destruct (lookup_turn_decode_fails query debug 1 [2] (retry_notice m0 w1) (msg := m1))
      as (w2 & -> & Hc2 & Hn2).
    { now rewrite (@nth_outcome_later w _ [search_request query] 0 _ Hn1' Hc1'). }
    unfold lookup_retry at 1. cbn [Nat.ltb Nat.leb].
    assert (Hn2' : net (retry_notice m1 w2) = net w) by (simpl; congruence).
    assert (Hc2' : calls (retry_notice m1 w2)
                   = (calls w ++ [search_request query; search_request query])%list).
    { simpl. rewrite Hc2, Hc1', <- app_assoc. reflexivity. }
    destruct (lookup_turn_decode_fails query debug 2 [] (retry_notice m1 w2) (msg := m2))
      as (w3 & -> & Hc3 & Hn3).
    { now rewrite (@nth_outcome_later w _ [search_request query; search_request query]
                     0 _ Hn2' Hc2'). }
    unfold lookup_retry. cbn [Nat.ltb Nat.leb].
    exists w3. split; [reflexivity|].
    rewrite Hc3, Hc2', <- app_assoc. reflexivity.
Qed.

(** Servers whose answers are not JSON. *)
Lemma fetch_pubmed_ids_decode_errors_witness :
  exists w',
    fetch_pubmed_ids "cancer" false world_not_json
    = (Err (RuntimeError ("Failed to fetch PubMed IDs after 3 attempts: "
                          ++ "Expecting value: line 1 column 1 (char 0)")), w')
    /\ calls w' = (calls world_not_json ++ repeat (search_request "cancer") 3)%list.
Proof.
  exact (proj2 (@fetch_pubmed_ids_decode_errors "cancer" false world_not_json eq_refl)
               _ _ _ eq_refl eq_refl eq_refl).
Defined.

(* ================================================================= *)
(** * Further properties: the debug flag *)

Section DebugFacts.

Lemma silence_fields (w1 w2 : World) :
  silence w1 = silence w2 ->
  net w1 = net w2 /\ calls w1 = calls w2
  /\ writable w1 = writable w2 /\ files w1 = files w2.
Proof.
  intros H. repeat split.
  - exact (f_equal net H).
  - exact (f_equal calls H).
  - exact (f_equal writable H).
  - exact (f_equal files H).
Qed.

Lemma silence_nth_outcome (w1 w2 : World) (k : nat) (rq : Request) :
  silence w1 = silence w2 -> nth_outcome w1 k rq = nth_outcome w2 k rq.
Proof.
  intros H. apply silence_fields in H as (Hn & Hc & _).
  unfold nth_outcome. now rewrite Hn, Hc.
Qed.

Lemma silence_log_call (w1 w2 : World) (rq : Request) :
  silence w1 = silence w2 -> silence (log_call rq w1) = silence (log_call rq w2).
Proof.
  intros H. apply silence_fields in H as (Hn & Hc & Hw & Hf).
  unfold silence, log_call. simpl. now rewrite Hn, Hc, Hw, Hf.
Qed.

Lemma silence_search_echo (query : string) (d : bool) (r : Response) (w : World) :
  silence (search_echo query d r w) = silence w.
Proof. unfold search_echo. now destruct d. Qed.

Lemma silence_fetch_echo (ids : list string) (d : bool) (r : Response) (w : World) :
  silence (fetch_echo ids d r w) = silence w.
Proof. unfold fetch_echo. now destruct d. Qed.

Variable fromstring : string -> string + ET.Element.
Variables d1 d2 : bool.

Lemma lookup_loop_debug (query : string) (attempts : list nat) (w1 w2 : World) :
  silence w1 = silence w2 ->
  fst (fetch_pubmed_ids_attempts query d1 (req_params (search_request query))
         attempts w1)
  = fst (fetch_pubmed_ids_attempts query d2 (req_params (search_request query))
           attempts w2)
  /\ silence (snd (fetch_pubmed_ids_attempts query d1
                     (req_params (search_request query)) attempts w1))
     = silence (snd (fetch_pubmed_ids_attempts query d2
                       (req_params (search_request query)) attempts w2)).
Proof.
  revert w1 w2. induction attempts as [|attempt rest IH]; intros w1 w2 H.
  - now split.
  - rewrite !lookup_turn. cbv zeta.
    rewrite (silence_nth_outcome 0 (search_request query) H).
    pose proof (silence_log_call (search_request query) H) as Hcall.
    assert (Hretry : forall msg wa wb,
               silence wa = silence wb ->
               fst (lookup_retry query d1 attempt rest msg wa)
               = fst (lookup_retry query d2 attempt rest msg wb)
               /\ silence (snd (lookup_retry query d1 attempt rest msg wa))
                  = silence (snd (lookup_retry query d2 attempt rest msg wb))).
    { intros msg wa wb Hab. unfold lookup_retry.
      destruct (attempt <? 2)%nat; [|now split].
      apply IH. exact Hab. }
    destruct (nth_outcome w2 0 (search_request query)) as [msg|r];
      [now apply Hretry|].
    destruct (transport_failure (inr r)) as [msg|]; [now apply Hretry|].
    assert (Hecho : silence (search_echo query d1 r (log_call (search_request query) w1))
                    = silence (search_echo query d2 r
                                 (log_call (search_request query) w2)))
      by now rewrite !silence_search_echo.
    destruct (json r) as [e|data].
    + destruct e; try (now split). now apply Hretry.
    + destruct (idlist_of_outcome data) as (res & Hres & _).
      rewrite !Hres. now split.
Qed.

Lemma parse_debug (xml_data : string) (w1 w2 : World) :
  silence w1 = silence w2 ->
  fst (parse_paper_details fromstring xml_data d1 w1)
  = fst (parse_paper_details fromstring xml_data d2 w2)
  /\ silence (snd (parse_paper_details fromstring xml_data d1 w1))
     = silence (snd (parse_paper_details fromstring xml_data d2 w2)).
Proof.
  intros H. rewrite !parse_paper_details_world.
  destruct (parse_paper_details_outcome fromstring d1 xml_data w1) as (wa & -> & _).
  destruct (parse_paper_details_outcome fromstring d2 xml_data w2) as (wb & -> & _).
  split; [reflexivity|].
  destruct (fromstring xml_data); trivial.
  now destruct d1, d2.
Qed.

Lemma fetch_loop_debug (pubmed_ids : list string) (attempts : list nat)
      (w1 w2 : World) :
  silence w1 = silence w2 ->
  fst (fetch_paper_details_attempts fromstring pubmed_ids d1
         (req_params (fetch_request pubmed_ids)) attempts w1)
  = fst (fetch_paper_details_attempts fromstring pubmed_ids d2
           (req_params (fetch_request pubmed_ids)) attempts w2)
  /\ silence (snd (fetch_paper_details_attempts fromstring pubmed_ids d1
                     (req_params (fetch_request pubmed_ids)) attempts w1))
     = silence (snd (fetch_paper_details_attempts fromstring pubmed_ids d2
                       (req_params (fetch_request pubmed_ids)) attempts w2)).
Proof.
  revert w1 w2. induction attempts as [|attempt rest IH]; intros w1 w2 H.
  - now split.
  - rewrite !fetch_turn. cbv zeta.
    rewrite (silence_nth_outcome 0 (fetch_request pubmed_ids) H).
    pose proof (silence_log_call (fetch_request pubmed_ids) H) as Hcall.
    assert (Hretry : forall msg,
               fst (fetch_retry fromstring pubmed_ids d1 attempt rest msg
                      (log_call (fetch_request pubmed_ids) w1))
               = fst (fetch_retry fromstring pubmed_ids d2 attempt rest msg
                        (log_call (fetch_request pubmed_ids) w2))
               /\ silence (snd (fetch_retry fromstring pubmed_ids d1 attempt rest msg
                                  (log_call (fetch_request pubmed_ids) w1)))
                  = silence (snd (fetch_retry fromstring pubmed_ids d2 attempt rest msg
                                    (log_call (fetch_request pubmed_ids) w2)))).
    { intros msg. unfold fetch_retry.
      destruct (attempt <? 2)%nat; [|now split].
      apply IH. exact Hcall. }
    destruct (nth_outcome w2 0 (fetch_request pubmed_ids)) as [msg|r];
      [now apply Hretry|].
    destruct (transport_failure (inr r)) as [msg|]; [now apply Hretry|].
    destruct (@parse_debug (text r)
                (fetch_echo pubmed_ids d1 r (log_call (fetch_request pubmed_ids) w1))
                (fetch_echo pubmed_ids d2 r (log_call (fetch_request pubmed_ids) w2)))
      as [Hres Hworld].
    { now rewrite !silence_fetch_echo. }
    simpl. rewrite Hres. now split.
Qed.

End DebugFacts.

(** X6: the debug flag changes the console and nothing else: with and
    without it, each of the three functions gives the same result, makes
    the same calls and leaves the same files. *)
Theorem debug_flag_only_prints
        (fromstring : string -> string + ET.Element) (w : World) :
  (forall query,
     fst (fetch_pubmed_ids query true w) = fst (fetch_pubmed_ids query false w)
     /\ silence (snd (fetch_pubmed_ids query true w))
        = silence (snd (fetch_pubmed_ids query false w)))
  /\ (forall xml_data,
        fst (parse_paper_details fromstring xml_data true w)
        = fst (parse_paper_details fromstring xml_data false w)
        /\ silence (snd (parse_paper_details fromstring xml_data true w))
           = silence (snd (parse_paper_details fromstring xml_data false w)))
  /\ (forall pubmed_ids,
        fst (fetch_paper_details fromstring pubmed_ids true w)
        = fst (fetch_paper_details fromstring pubmed_ids false w)
        /\ silence (snd (fetch_paper_details fromstring pubmed_ids true w))
           = silence (snd (fetch_paper_details fromstring pubmed_ids false w))).
Proof.
  repeat split.
  - unfold fetch_pubmed_ids.
    destruct (negb (PyStr.truthy (PyStr.strip query))); trivial.
    now apply (lookup_loop_debug true false query (seq 0 3) (w1 := w) (w2 := w)).
  - unfold fetch_pubmed_ids.
    destruct (negb (PyStr.truthy (PyStr.strip query))); trivial.
    now apply (lookup_loop_debug true false query (seq 0 3) (w1 := w) (w2 := w)).
  - now apply parse_debug.
  - now apply parse_debug.
  - unfold fetch_paper_details. destruct pubmed_ids as [|i ids]; trivial.
    now apply (fetch_loop_debug fromstring true false (i :: ids) (seq 0 3)
                 (w1 := w) (w2 := w)).
  - unfold fetch_paper_details. destruct pubmed_ids as [|i ids]; trivial.
    now apply (fetch_loop_debug fromstring true false (i :: ids) (seq 0 3)
                 (w1 := w) (w2 := w)).
Qed.

(* ================================================================= *)
(** * Further properties: [save_to_csv] on any rows *)

Section SaveFacts.

Variable filename : string.

Lemma file_content_update_other (fs : list (string * list (list string)))
      (f : list (list string) -> list (list string)) (other : string) :
  other <> filename ->
  Csv.file_content (Csv.update fs filename f) other = Csv.file_content fs other.
Proof.
  intros Hne. induction fs as [|[n c] fs IH]; simpl.
  - destruct (String.eqb_spec filename other); congruence.
  - destruct (String.eqb_spec n filename) as [->|]; simpl.
    + destruct (String.eqb_spec filename other); congruence.
    + now rewrite IH.
Qed.

Lemma in_fieldnames (k : string) :
  existsb (String.eqb k) fieldnames = true <-> In k fieldnames.
Proof.
  rewrite existsb_exists. split.
  - intros (x & Hx & E). apply String.eqb_eq in E. now subst.
  - intros H. exists k. split; trivial. apply String.eqb_refl.
Qed.

Lemma dict_to_list_within (rowdict : PyDict.dict) (w : World) :
  within_header rowdict ->
  Csv.dict_to_list fieldnames rowdict w = (Ok (cells_of rowdict), w).
Proof.
  intros H. unfold Csv.dict_to_list.
  assert (E : filter (fun k => negb (existsb (String.eqb k) fieldnames))
                     (PyDict.keys rowdict) = []).
  { unfold within_header in H.
    induction (PyDict.keys rowdict) as [|k l IH]; trivial.
    assert (Hk : existsb (String.eqb k) fieldnames = true)
      by (apply in_fieldnames, H; now left).
    cbn [filter]. rewrite Hk. cbn [negb]. apply IH.
    intros k' Hk'. apply H. now right. }
  now rewrite E.
Qed.

Lemma dict_to_list_extra (rowdict : PyDict.dict) (w : World) :
  ~ within_header rowdict ->
  exists msg, Csv.dict_to_list fieldnames rowdict w = (Err (ValueError msg), w).
Proof.
  intros H. unfold Csv.dict_to_list.
  destruct (filter _ (PyDict.keys rowdict)) as [|k l] eqn:E.
  - exfalso. apply H. intros k Hk. apply in_fieldnames.
    destruct (existsb (String.eqb k) fieldnames) eqn:Ek; trivial.
    assert (Hin : In k (filter (fun k => negb (existsb (String.eqb k) fieldnames))
                               (PyDict.keys rowdict))).
    { apply filter_In. split; trivial. now rewrite Ek. }
    rewrite E in Hin. destruct Hin.
  - eexists. reflexivity.
Qed.

(** Rows within the header are written one after the other; the first
    row with another key stops the writing. *)
Lemma writerows_until_extra (good rest : list PyDict.dict) (w : World)
      (content : list (list string)) :
  Forall within_header good ->
  Csv.file_content (files w) filename = Some content ->
  exists w',
    Csv.file_content (files w') filename = Some (content ++ map cells_of good)%list
    /\ (forall other, other <> filename ->
          Csv.file_content (files w') other = Csv.file_content (files w) other)
    /\ calls w' = calls w /\ stdout w' = stdout w
    /\ Csv.writerows filename fieldnames (good ++ rest)%list w
       = Csv.writerows filename fieldnames rest w'.
Proof.
  intros Hgood. revert w content.
  induction Hgood as [|row good Hrow _ IH]; intros w content Hc.
  - exists w. simpl. rewrite app_nil_r. now repeat split.
  - cbn [app Csv.writerows]. unfold bind at 1.
    rewrite dict_to_list_within by trivial.
    unfold bind at 1, Csv.writer_writerow.
    set (w1 := Csv.update_file filename _ w).
    destruct (IH w1 (content ++ [cells_of row])%list)
      as (w' & Hcontent & Hother & Hcalls & Hout & Hrun).
    { subst w1. simpl. now rewrite file_content_update, Hc. }
    exists w'. split; [|split; [|split; [|split]]]; trivial.
    + rewrite Hcontent, <- app_assoc. reflexivity.
    + intros other Hne. rewrite (Hother other Hne). subst w1. simpl.
      now apply file_content_update_other.
Qed.

End SaveFacts.

(** X10: [save_to_csv], given any rows whose keys are fields of the header,
    succeeds when the file can be opened: the file then holds the header
    and one record of six cells for every row, in order, with an empty
    cell for every field that a row lacks; whatever the file held before
    is gone, no other file changes, and no call or console output is
    made. *)
Theorem save_to_csv_fills_missing_fields
        (filename : string) (papers : list PyDict.dict) (w : World) :
  writable w filename = true ->
  Forall within_header papers ->
  exists w',
    save_to_csv filename papers w = (Ok tt, w')
    /\ Csv.file_content (files w') filename
       = Some (fieldnames :: map cells_of papers)
    /\ Forall (fun record => List.length record = 6) (map cells_of papers)
    /\ (forall other, other <> filename ->
          Csv.file_content (files w') other = Csv.file_content (files w) other)
    /\ calls w' = calls w /\ stdout w' = stdout w.
Proof.
  intros Hopen Hrows.
  unfold save_to_csv, bind, Csv.open_w. rewrite Hopen.
  unfold Csv.writeheader, Csv.writer_writerow.
  set (w0 := Csv.update_file filename _ (Csv.update_file filename _ w)).
  destruct (@writerows_until_extra filename papers [] w0 [fieldnames] Hrows)
    as (w' & Hcontent & Hother & Hcalls & Hout & Hrun).
  { subst w0. simpl. now rewrite !file_content_update. }
  rewrite app_nil_r in Hrun. rewrite Hrun. simpl.
  exists w'. repeat split; trivial.
  - apply Forall_forall. intros record Hrec.
    apply in_map_iff in Hrec as (row & <- & _). reflexivity.
  - intros other Hne. rewrite (Hother other Hne). subst w0. simpl.
    now rewrite !file_content_update_other.
Qed.

(** A row that has a title only. *)
Lemma save_to_csv_fills_missing_fields_witness :
  exists w',
    save_to_csv "papers.csv" [[("Title", "A trial")]] world_up = (Ok tt, w')
    /\ Csv.file_content (files w') "papers.csv"
       = Some (fieldnames :: map cells_of [[("Title", "A trial")]])
    /\ Forall (fun record => List.length record = 6)
              (map cells_of [[("Title", "A trial")]])
    /\ (forall other, other <> "papers.csv" ->
          Csv.file_content (files w') other = Csv.file_content (files world_up) other)
    /\ calls w' = calls world_up /\ stdout w' = stdout world_up.
Proof.
  refine (@save_to_csv_fills_missing_fields "papers.csv" [[("Title", "A trial")]]
            world_up eq_refl _).
  constructor; [|constructor].
  intros k [<-|[]]. simpl. tauto.
Defined.

(** X11: the first row with a key that is not a field of the header makes
    [save_to_csv] raise [ValueError]; the file then holds the header and
    the records of the rows before that one.  A file that cannot be opened
    makes it raise [OSError] and changes nothing. *)
Theorem save_to_csv_stops_at_extra_field
        (filename : string) (good : list PyDict.dict) (bad : PyDict.dict)
        (rest : list PyDict.dict) (w : World) :
  Forall within_header good ->
  ~ within_header bad ->
  (writable w filename = true ->
   exists msg w',
     save_to_csv filename (good ++ bad :: rest)%list w = (Err (ValueError msg), w')
     /\ Csv.file_content (files w') filename
        = Some (fieldnames :: map cells_of good))
  /\ (writable w filename = false ->
      save_to_csv filename (good ++ bad :: rest)%list w = (Err (OSError filename), w)).
Proof.
  intros Hgood Hbad. split; intros Hopen.
  - unfold save_to_csv, bind, Csv.open_w. rewrite Hopen.
    unfold Csv.writeheader, Csv.writer_writerow.
    set (w0 := Csv.update_file filename _ (Csv.update_file filename _ w)).
    destruct (@writerows_until_extra filename good (bad :: rest) w0 [fieldnames] Hgood)
      as (w' & Hcontent & _ & _ & _ & Hrun).
    { subst w0. simpl. now rewrite !file_content_update. }
    rewrite Hrun. cbn [Csv.writerows]. unfold bind at 1.
    destruct (dict_to_list_extra w' Hbad) as [msg ->].
    now exists msg, w'.
  - unfold save_to_csv, bind, Csv.open_w. now rewrite Hopen.
Qed.

(** A good row, then a row with the field "DOI". *)
Lemma save_to_csv_stops_at_extra_field_witness :
  exists msg w',
    save_to_csv "papers.csv"
      ([[("Title", "A trial")]] ++ [("DOI", "10.1000/1")] :: [])%list world_up
    = (Err (ValueError msg), w')
    /\ Csv.file_content (files w') "papers.csv"
       = Some (fieldnames :: map cells_of [[("Title", "A trial")]]).
Proof.
  refine (proj1 (@save_to_csv_stops_at_extra_field "papers.csv"
                   [[("Title", "A trial")]] [("DOI", "10.1000/1")] [] world_up _ _)
                eq_refl).
  - constructor; [|constructor]. intros k [<-|[]]. simpl. tauto.
  - intros H. specialize (H "DOI" (or_introl eq_refl)). simpl in H.
    repeat destruct H as [H|H]; try discriminate; contradiction.
Defined.

(* ================================================================= *)
(** * Further properties: [main] *)

Section MainFacts.

Variable fromstring : string -> string + ET.Element.
Variable untyped : option JSON -> bool -> M (option (list PyDict.dict)).
Variable str_of_dict : PyDict.dict -> string.
Variable str_of_exn : exn -> string.

Let run := main fromstring untyped str_of_dict str_of_exn.
Let body := main_body fromstring untyped str_of_dict.

Lemma main_unfold (args : Args) (w : World) :
  PyStr.all_space (arg_query args) = false ->
  run args w = try_except (body args) (main_handler str_of_exn) w.
Proof.
  intros H. unfold run, main. now rewrite strip_falsy, H.
Qed.

(** The search that succeeds at the first attempt. *)
Lemma lookup_first_try (query : string) (debug : bool) (w : World) (r : Response)
      (data : JSON) :
  PyStr.all_space query = false ->
  nth_outcome w 0 (search_request query) = inr r ->
  transport_failure (inr r) = None ->
  json r = inr data ->
  fetch_pubmed_ids query debug w
  = (fst (idlist_of data w), search_echo query debug r (log_call (search_request query) w)).
Proof.
  intros Hq Hr Hpass Hjson.
  rewrite fetch_pubmed_ids_unfold by trivial.
  cbn [seq]. rewrite lookup_turn. cbv zeta. rewrite Hr, Hpass, Hjson.
  destruct (idlist_of_outcome data) as (res & Hres & _).
  now rewrite !Hres.
Qed.

(** The fetch that succeeds at the first attempt. *)
Lemma fetch_first_try (pubmed_ids : list string) (debug : bool) (w : World)
      (r : Response) (root : ET.Element) :
  pubmed_ids <> [] ->
  nth_outcome w 0 (fetch_request pubmed_ids) = inr r ->
  transport_failure (inr r) = None ->
  fromstring (text r) = inr root ->
  exists w',
    fetch_paper_details fromstring pubmed_ids debug w
    = (Ok (Some (map paper_of_article (records_below root))), w')
    /\ calls w' = (calls w ++ [fetch_request pubmed_ids])%list
    /\ net w' = net w /\ writable w' = writable w /\ files w' = files w
    /\ (debug = false -> stdout w' = stdout w).
Proof.
  intros Hids Hr Hpass Hroot.
  rewrite fetch_paper_details_unfold by trivial.
  cbn [seq]. rewrite fetch_turn. cbv zeta. rewrite Hr, Hpass.
  rewrite parse_paper_details_world.
  destruct (parse_paper_details_outcome fromstring debug (text r)
              (fetch_echo pubmed_ids debug r (log_call (fetch_request pubmed_ids) w)))
    as (w3 & -> & _).
  rewrite Hroot. simpl fst.
  eexists. split; [reflexivity|].
  unfold fetch_echo. destruct debug; repeat split; trivial; discriminate.
Qed.

Lemma print_each_rows (rows : list PyDict.dict) (w : World) :
  exists w',
    print_each str_of_dict rows w = (Ok tt, w')
    /\ stdout w' = (stdout w ++ map (row_line str_of_dict) rows)%list
    /\ calls w' = calls w /\ files w' = files w.
Proof.
  revert w. induction rows as [|row rows IH]; intros w.
  - exists w. simpl. now rewrite app_nil_r.
  - cbn [print_each]. unfold bind at 1, print at 1.
    destruct (IH (log_print [VStr (str_of_dict row)] w))
      as (w' & -> & Hout & Hcalls & Hfiles).
    exists w'. repeat split; trivial.
    rewrite Hout. simpl. now rewrite <- app_assoc.
Qed.

Lemma save_extracted_rows (filename : string) (articles : list ET.Element)
      (w : World) :
  writable w filename = true ->
  exists w',
    save_to_csv filename (map paper_of_article articles) w = (Ok tt, w')
    /\ Csv.file_content (files w') filename
       = Some (fieldnames :: map (fun row => map snd row)
                                 (map paper_of_article articles))
    /\ calls w' = calls w.
Proof.
  intros Hopen.
  unfold save_to_csv, bind, Csv.open_w. rewrite Hopen.
  unfold Csv.writeheader, Csv.writer_writerow.
  set (w0 := Csv.update_file filename _ (Csv.update_file filename _ w)).
  destruct (@writerows_rows filename articles w0 [fieldnames])
    as (w3 & Hrun & Hcontent & Hcalls).
  { subst w0. simpl. now rewrite !file_content_update. }
  exists w3. repeat split; trivial.
Qed.

End MainFacts.

(** X12: [main] with a query that is empty or made of white space only
    prints the error line and does nothing else: no call, no file. *)
Theorem main_blank_query
        (fromstring : string -> string + ET.Element)
        (untyped : option JSON -> bool -> M (option (list PyDict.dict)))
        (str_of_dict : PyDict.dict -> string) (str_of_exn : exn -> string)
        (args : Args) (w : World) :
  PyStr.all_space (arg_query args) = true ->
  main fromstring untyped str_of_dict str_of_exn args w
  = (Ok tt, log_print [VStr "Error: Query cannot be empty or whitespace."] w).
Proof.
  intros H. unfold main. now rewrite strip_falsy, H.
Qed.

(** No query at all. *)
Lemma main_blank_query_witness :
  main sample_fromstring sample_untyped sample_str_of_dict sample_str_of_exn
       {| arg_query := ""; arg_file := Some "papers.csv"; arg_debug := true |}
       world_up
  = (Ok tt, log_print [VStr "Error: Query cannot be empty or whitespace."] world_up).
Proof.
  exact (@main_blank_query sample_fromstring sample_untyped sample_str_of_dict
           sample_str_of_exn
           {| arg_query := ""; arg_file := Some "papers.csv"; arg_debug := true |}
           world_up eq_refl).
Defined.

(** X14: when the search fails three times in transport, [main] prints
    "Runtime Error: " and the message of [fetch_pubmed_ids] with the last
    cause as its last line.  When the first answer decodes to an object
    without ["esearchresult"], or whose ["esearchresult"] is an object
    without ["idlist"], the last line is "Input Error: Invalid response
    structure from PubMed API."; when the body or its ["esearchresult"] is
    null, a boolean or a number, the last line is "An unexpected error
    occurred:" with the text of the [TypeError].  In all three cases only
    search requests are sent and no file is written, with or without
    [--file]. *)
Theorem main_reports_search_errors
        (fromstring : string -> string + ET.Element)
        (untyped : option JSON -> bool -> M (option (list PyDict.dict)))
        (str_of_dict : PyDict.dict -> string) (str_of_exn : exn -> string)
        (args : Args) (w : World) :
  PyStr.all_space (arg_query args) = false ->
  (forall e0 e1 e2,
     failures w (search_request (arg_query args)) [e0; e1; e2] ->
     exists w' before,
       main fromstring untyped str_of_dict str_of_exn args w = (Ok tt, w')
       /\ stdout w'
          = (before ++ [[VStr ("Runtime Error: "
                               ++ "Failed to fetch PubMed IDs after 3 attempts: "
                               ++ e2)]])%list
       /\ calls w' = (calls w ++ repeat (search_request (arg_query args)) 3)%list
       /\ files w' = files w)
  /\ (forall r data,
        nth_outcome w 0 (search_request (arg_query args)) = inr r ->
        transport_failure (inr r) = None ->
        json r = inr data ->
        lacks_idlist data ->
        exists w' before,
          main fromstring untyped str_of_dict str_of_exn args w = (Ok tt, w')
          /\ stdout w'
             = (before ++ [[VStr ("Input Error: "
                                  ++ "Invalid response structure from PubMed API.")]])%list
          /\ calls w' = (calls w ++ [search_request (arg_query args)])%list
          /\ files w' = files w)
  /\ (forall r data,
        nth_outcome w 0 (search_request (arg_query args)) = inr r ->
        transport_failure (inr r) = None ->
        json r = inr data ->
        (not_a_container data = true
         \/ exists members v,
              data = JObject members
              /\ PyJson.lookup members "esearchresult" = Some v
              /\ not_a_container v = true) ->
        exists w' before,
          main fromstring untyped str_of_dict str_of_exn args w = (Ok tt, w')
          /\ stdout w'
             = (before ++ [[VStr "An unexpected error occurred:";
                            VStr (str_of_exn TypeError)]])%list
          /\ calls w' = (calls w ++ [search_request (arg_query args)])%list
          /\ files w' = files w).
Proof.
  intros Hq. split; [|split].
  - intros e0 e1 e2 Hf.
    rewrite main_unfold by trivial.
    unfold try_except, main_body, bind.
    rewrite fetch_pubmed_ids_unfold by trivial.
    destruct (@loop_exhausted _ _ _ _
                (lookup_turn_fails (arg_query args) (arg_debug args)) e0 e1 e2 w Hf)
      as (w' & Hrun & Hcalls).
    destruct (@loop_ends _ _ _
                (lookup_turn_ends_or_goes_on (arg_debug args) (arg_query args)) 3 0 w)
      as (res & w'' & k & Hrun' & _ & _ & _ & _ & _ & Hfiles); try lia.
    rewrite Hrun in Hrun'. injection Hrun' as <- <-.
    rewrite Hrun. simpl.
    eexists. exists (stdout w'). repeat split; trivial.
  - intros r data Hr Hpass Hjson Hlacks.
    rewrite main_unfold by trivial.
    unfold try_except, main_body, bind.
    rewrite (@lookup_first_try (arg_query args) (arg_debug args) w r data
               Hq Hr Hpass Hjson).
    destruct (idlist_of_outcome data) as (res & Hres & _ & Hval & _).
    rewrite Hres, (Hval Hlacks). simpl.
    eexists.
    exists (stdout (search_echo (arg_query args) (arg_debug args) r
                      (log_call (search_request (arg_query args)) w))).
    split; [reflexivity|]. split; [reflexivity|].
    unfold search_echo. destruct (arg_debug args); split; reflexivity.
  - intros r data Hr Hpass Hjson Hscalar.
    rewrite main_unfold by trivial.
    unfold try_except, main_body, bind.
    rewrite (@lookup_first_try (arg_query args) (arg_debug args) w r data
               Hq Hr Hpass Hjson).
    rewrite (idlist_of_scalars w Hscalar). simpl.
    eexists.
    exists (stdout (search_echo (arg_query args) (arg_debug args) r
                      (log_call (search_request (arg_query args)) w))).
    split; [reflexivity|]. split; [reflexivity|].
    unfold search_echo. destruct (arg_debug args); split; reflexivity.
Qed.

(** No server can be reached, and a file was asked for. *)
Lemma main_reports_search_errors_witness :
  exists w' before,
    main sample_fromstring sample_untyped sample_str_of_dict sample_str_of_exn
         (sample_args (Some "papers.csv")) world_down = (Ok tt, w')
    /\ stdout w'
       = (before ++ [[VStr ("Runtime Error: "
                            ++ "Failed to fetch PubMed IDs after 3 attempts: "
                            ++ "Connection refused")]])%list
    /\ calls w' = (calls world_down ++ repeat (search_request "cancer") 3)%list
    /\ files w' = files world_down.
Proof.
  refine (proj1 (@main_reports_search_errors sample_fromstring sample_untyped
                   sample_str_of_dict sample_str_of_exn
                   (sample_args (Some "papers.csv")) world_down eq_refl)
                "Connection refused" "Connection refused" "Connection refused" _).
  intros i msg Hi.
  destruct i as [|[|[|i]]]; simpl in Hi;
    try (injection Hi as <-; reflexivity); destruct i; discriminate.
Defined.

(** X15: the whole run with [--file]: when the search and the fetch both
    succeed at their first attempt, [main] sends the search request and
    then the fetch request for the identifiers that the search returned,
    writes the header and the rows of the records of the answer to the
    file, and prints "Results saved to " with the name of the file last. *)
Theorem main_saves_the_rows
        (fromstring : string -> string + ET.Element)
        (untyped : option JSON -> bool -> M (option (list PyDict.dict)))
        (str_of_dict : PyDict.dict -> string) (str_of_exn : exn -> string)
        (args : Args) (w : World) (r1 r2 : Response)
        (members result : list (string * JSON)) (idlist : JSON)
        (ids : list string) (root : ET.Element) (c : ascii) (f : string) :
  PyStr.all_space (arg_query args) = false ->
  nth_outcome w 0 (search_request (arg_query args)) = inr r1 ->
  transport_failure (inr r1) = None ->
  json r1 = inr (JObject members) ->
  PyJson.lookup members "esearchresult" = Some (JObject result) ->
  PyJson.lookup result "idlist" = Some idlist ->
  as_str_list (Some idlist) = Some ids ->
  ids <> [] ->
  nth_outcome w 1 (fetch_request ids) = inr r2 ->
  transport_failure (inr r2) = None ->
  fromstring (text r2) = inr root ->
  arg_file args = Some (String c f) ->
  writable w (String c f) = true ->
  exists w' before,
    main fromstring untyped str_of_dict str_of_exn args w = (Ok tt, w')
    /\ calls w' = (calls w ++ [search_request (arg_query args); fetch_request ids])%list
    /\ Csv.file_content (files w') (String c f)
       = Some (fieldnames
               :: map (fun row => map snd row)
                      (map paper_of_article (records_below root)))
    /\ stdout w' = (before ++ [[VStr ("Results saved to " ++ String c f)]])%list.
Proof.
  intros Hq Hr1 Hp1 Hj1 Hres Hids Hlist Hne Hr2 Hp2 Hroot Hfile Hopen.
  rewrite main_unfold by trivial.
  unfold try_except, main_body, bind.
  rewrite (@lookup_first_try (arg_query args) (arg_debug args) w r1 _ Hq Hr1 Hp1 Hj1).
  destruct (idlist_of_outcome (JObject members)) as (res & Hval & _ & _ & Hok).
  rewrite Hval, (Hok members result idlist eq_refl Hres Hids). simpl fst.
  cbv beta iota. rewrite Hlist.
  set (w1 := search_echo (arg_query args) (arg_debug args) r1
               (log_call (search_request (arg_query args)) w)).
  assert (H1 : calls w1 = (calls w ++ [search_request (arg_query args)])%list
               /\ net w1 = net w /\ writable w1 = writable w).
  { subst w1. unfold search_echo. destruct (arg_debug args); now repeat split. }
  destruct H1 as (Hc1 & Hn1 & Hw1).
  destruct (@fetch_first_try fromstring ids (arg_debug args) w1 r2 root Hne)
    as (w2 & -> & Hc2 & _ & Hw2 & _ & _); trivial.
  { now rewrite (@nth_outcome_later w w1 [search_request (arg_query args)] 0 _ Hn1 Hc1). }
  rewrite Hfile.
  destruct (@save_extracted_rows (String c f) (records_below root) w2)
    as (w3 & -> & Hcontent & Hc3).
  { now rewrite Hw2, Hw1. }
  exists (log_print [VStr ("Results saved to " ++ String c f)] w3), (stdout w3).
  repeat split; trivial.
  simpl. rewrite Hc3, Hc2, Hc1, <- app_assoc. reflexivity.
Qed.

(** The servers that answer at once, and the file "papers.csv". *)
Lemma main_saves_the_rows_witness :
  exists w' before,
    main sample_fromstring sample_untyped sample_str_of_dict sample_str_of_exn
         (sample_args (Some "papers.csv")) world_up = (Ok tt, w')
    /\ calls w'
       = (calls world_up ++ [search_request "cancer"; fetch_request ["1"]])%list
    /\ Csv.file_content (files w') "papers.csv"
       = Some (fieldnames
               :: map (fun row => map snd row)
                      (map paper_of_article (records_below one_record_document)))
    /\ stdout w' = (before ++ [[VStr ("Results saved to " ++ "papers.csv")]])%list.
Proof.
  refine (@main_saves_the_rows sample_fromstring sample_untyped sample_str_of_dict
            sample_str_of_exn (sample_args (Some "papers.csv")) world_up
            _ _ _ _ (JArray [JString "1"]) ["1"] one_record_document
            "p" "apers.csv"
            eq_refl eq_refl eq_refl eq_refl eq_refl eq_refl eq_refl _
            eq_refl eq_refl eq_refl eq_refl eq_refl).
  discriminate.
Defined.

(** X16: the whole run without [--file] (or with an empty file name) and
    without the debug flag: when the search and the fetch both succeed at
    their first attempt, [main] prints one line for every row, in order,
    and nothing else, and writes no file. *)
Theorem main_prints_the_rows
        (fromstring : string -> string + ET.Element)
        (untyped : option JSON -> bool -> M (option (list PyDict.dict)))
        (str_of_dict : PyDict.dict -> string) (str_of_exn : exn -> string)
        (args : Args) (w : World) (r1 r2 : Response)
        (members result : list (string * JSON)) (idlist : JSON)
        (ids : list string) (root : ET.Element) :
  PyStr.all_space (arg_query args) = false ->
  nth_outcome w 0 (search_request (arg_query args)) = inr r1 ->
  transport_failure (inr r1) = None ->
  json r1 = inr (JObject members) ->
  PyJson.lookup members "esearchresult" = Some (JObject result) ->
  PyJson.lookup result "idlist" = Some idlist ->
  as_str_list (Some idlist) = Some ids ->
  ids <> [] ->
  nth_outcome w 1 (fetch_request ids) = inr r2 ->
  transport_failure (inr r2) = None ->
  fromstring (text r2) = inr root ->
  arg_file args = None \/ arg_file args = Some "" ->
  arg_debug args = false ->
  exists w',
    main fromstring untyped str_of_dict str_of_exn args w = (Ok tt, w')
    /\ calls w' = (calls w ++ [search_request (arg_query args); fetch_request ids])%list
    /\ stdout w'
       = (stdout w ++ map (row_line str_of_dict)
                          (map paper_of_article (records_below root)))%list
    /\ files w' = files w.
Proof.
  intros Hq Hr1 Hp1 Hj1 Hres Hids Hlist Hne Hr2 Hp2 Hroot Hfile Hdebug.
  rewrite main_unfold by trivial.
  unfold try_except, main_body, bind.
  rewrite (@lookup_first_try (arg_query args) (arg_debug args) w r1 _ Hq Hr1 Hp1 Hj1).
  destruct (idlist_of_outcome (JObject members)) as (res & Hval & _ & _ & Hok).
  rewrite Hval, (Hok members result idlist eq_refl Hres Hids). simpl fst.
  cbv beta iota. rewrite Hlist, Hdebug. unfold search_echo.
  set (w1 := log_call (search_request (arg_query args)) w).
  destruct (@fetch_first_try fromstring ids false w1 r2 root Hne)
    as (w2 & -> & Hc2 & _ & _ & Hf2 & Hout2); trivial.
  { now rewrite (@nth_outcome_later w w1 [search_request (arg_query args)] 0 _
                   eq_refl eq_refl). }
  destruct (print_each_rows str_of_dict
              (map paper_of_article (records_below root)) w2)
    as (w3 & Hrun & Hout3 & Hc3 & Hf3).
  exists w3. split.
  - destruct Hfile as [-> | ->]; now rewrite Hrun.
  - repeat split.
    + rewrite Hc3, Hc2. subst w1. simpl. now rewrite <- app_assoc.
    + rewrite Hout3, (Hout2 eq_refl). reflexivity.
    + now rewrite Hf3, Hf2.
Qed.

(** The servers that answer at once, and no file. *)
Lemma main_prints_the_rows_witness :
  exists w',
    main sample_fromstring sample_untyped sample_str_of_dict sample_str_of_exn
         (sample_args None) world_up = (Ok tt, w')
    /\ calls w'
       = (calls world_up ++ [search_request "cancer"; fetch_request ["1"]])%list
    /\ stdout w'
       = (stdout world_up
          ++ map (row_line sample_str_of_dict)
                 (map paper_of_article (records_below one_record_document)))%list
    /\ files w' = files world_up.
Proof.
  refine (@main_prints_the_rows sample_fromstring sample_untyped sample_str_of_dict
            sample_str_of_exn (sample_args None) world_up
            _ _ _ _ (JArray [JString "1"]) ["1"] one_record_document
            eq_refl eq_refl eq_refl eq_refl eq_refl eq_refl eq_refl _
            eq_refl eq_refl eq_refl _ eq_refl).
  - discriminate.
  - now left.
Defined.

(** X17: when the search returns the empty list, [main] sends no fetch
    request: the search request is its only call, with or without
    [--file] and whether or not the file can be opened.  With [--file] and
    a file that can be opened, the file then holds the header and no
    record; without [--file] (or with an empty file name) nothing is
    printed for the result and no file is written. *)
Theorem main_empty_result
        (fromstring : string -> string + ET.Element)
        (untyped : option JSON -> bool -> M (option (list PyDict.dict)))
        (str_of_dict : PyDict.dict -> string) (str_of_exn : exn -> string)
        (args : Args) (w : World) (r1 : Response)
        (members result : list (string * JSON)) :
  PyStr.all_space (arg_query args) = false ->
  nth_outcome w 0 (search_request (arg_query args)) = inr r1 ->
  transport_failure (inr r1) = None ->
  json r1 = inr (JObject members) ->
  PyJson.lookup members "esearchresult" = Some (JObject result) ->
  PyJson.lookup result "idlist" = Some (JArray []) ->
  exists w',
    main fromstring untyped str_of_dict str_of_exn args w = (Ok tt, w')
    /\ calls w' = (calls w ++ [search_request (arg_query args)])%list
    /\ (forall c f,
          arg_file args = Some (String c f) ->
          writable w (String c f) = true ->
          Csv.file_content (files w') (String c f) = Some [fieldnames])
    /\ (arg_file args = None \/ arg_file args = Some "" ->
        files w' = files w
        /\ stdout w'
           = stdout (search_echo (arg_query args) (arg_debug args) r1
                       (log_call (search_request (arg_query args)) w))).
Proof.
  intros Hq Hr1 Hp1 Hj1 Hres Hids.
  rewrite main_unfold by trivial.
  unfold try_except, main_body, bind.
  rewrite (@lookup_first_try (arg_query args) (arg_debug args) w r1 _ Hq Hr1 Hp1 Hj1).
  destruct (idlist_of_outcome (JObject members)) as (res & Hval & _ & _ & Hok).
  rewrite Hval, (Hok members result (JArray []) eq_refl Hres Hids). simpl fst.
  cbv beta iota. cbn [as_str_list strings_of fetch_paper_details ret].
  set (w1 := search_echo (arg_query args) (arg_debug args) r1
               (log_call (search_request (arg_query args)) w)).
  assert (H1 : calls w1 = (calls w ++ [search_request (arg_query args)])%list
               /\ writable w1 = writable w /\ files w1 = files w).
  { subst w1. unfold search_echo. destruct (arg_debug args); now repeat split. }
  destruct H1 as (Hc1 & Hw1 & Hf1).
  destruct (arg_file args) as [[|c f]|] eqn:Hfile.
  - (* an empty file name: the rows are printed *)
    exists w1. simpl. repeat split; trivial. intros c f [=].
  - (* a file name *)
    destruct (writable w (String c f)) eqn:Hopen.
    + destruct (@save_extracted_rows (String c f) [] w1)
        as (w3 & Hrun & Hcontent & Hc3).
      { now rewrite Hw1. }
      simpl map in Hrun, Hcontent. rewrite Hrun.
      eexists. split; [reflexivity|]. split; [|split].
      * simpl. now rewrite Hc3.
      * intros c' f' [= <- <-] _. exact Hcontent.
      * intros [H|H]; discriminate.
    + unfold save_to_csv, bind, Csv.open_w. rewrite Hw1, Hopen. simpl.
      eexists. split; [reflexivity|]. split; [|split].
      * exact Hc1.
      * intros c' f' [= <- <-] H. congruence.
      * intros [H|H]; discriminate.
  - (* no file: the rows are printed *)
    exists w1. simpl. repeat split; trivial. intros c f [=].
Qed.

(** Servers that answer with an empty list of identifiers. *)
Lemma main_empty_result_witness :
  exists w',
    main sample_fromstring sample_untyped sample_str_of_dict sample_str_of_exn
         (sample_args (Some "papers.csv")) world_no_match = (Ok tt, w')
    /\ calls w' = (calls world_no_match ++ [search_request "cancer"])%list
    /\ (forall c f,
          arg_file (sample_args (Some "papers.csv")) = Some (String c f) ->
          writable world_no_match (String c f) = true ->
          Csv.file_content (files w') (String c f) = Some [fieldnames])
    /\ (arg_file (sample_args (Some "papers.csv")) = None
        \/ arg_file (sample_args (Some "papers.csv")) = Some "" ->
        files w' = files world_no_match
        /\ stdout w'
           = stdout (search_echo "cancer" false
                       (sample_response 200 "OK" "{}"
                          (inr (JObject [("esearchresult",
                                          JObject [("idlist", JArray [])])])))
                       (log_call (search_request "cancer") world_no_match))).
Proof.
  exact (@main_empty_result sample_fromstring sample_untyped sample_str_of_dict
           sample_str_of_exn (sample_args (Some "papers.csv")) world_no_match
           _ _ _ eq_refl eq_refl eq_refl eq_refl eq_refl eq_refl).
Defined.

(* ================================================================= *)
(** * Further properties: [filter_non_academic_authors] on any lists *)

(** X18: [filter_non_academic_authors] pairs names and affiliations by
    position and stops at the end of the shorter list: it never returns
    more entries than the shorter list has items, and it returns none when
    either list is empty. *)
Theorem filter_non_academic_authors_bounded (authors affiliations : list string) :
  List.length (filter_non_academic_authors authors affiliations)
  <= Nat.min (List.length authors) (List.length affiliations)
  /\ filter_non_academic_authors authors [] = []
  /\ filter_non_academic_authors [] affiliations = [].
Proof.
  split; [|split].
  - rewrite filter_non_academic_authors_eq, length_map.
    rewrite <- length_combine. apply filter_length_le.
  - rewrite filter_non_academic_authors_eq. now destruct authors.
  - reflexivity.
Qed.
